(** * Logstash MCP server: session gating, tool dispatch and diagnostics

    A shallow embedding of [logstash_mcp_server.py]: the JSON values the
    server receives and returns, the Python operations the handlers apply to
    them, the upstream HTTP calls as an explicit log threaded through a small
    state-and-exception monad, and the three handlers [health_check],
    [handle_tool_call] and [handle_request]. *)

From Stdlib Require Import ZArith QArith Qround String Ascii List Bool Lia Floats DecimalString.
Import ListNotations.
Set Warnings "-inexact-float,-register-all".

Local Open Scope string_scope.
Local Open Scope Z_scope.

(** ** Python values

    The values that [json.loads] produces and [json.dumps] consumes.  A dict is
    the list of its items in insertion order; its keys are strings, as in
    every dict this program reads or builds.  A [str] is the sequence of its
    code points, kept below 256. *)

Inductive value : Type :=
| PyNone
| PyBool (b : bool)
| PyInt (n : Z)
| PyFloat (f : float)
| PyStr (s : string)
| PyList (l : list value)
| PyDict (d : list (string * value)).

(** ** Exceptions *)

Inductive exn_class : Type :=
| ClientError        (* aiohttp.ClientError and its subclasses *)
| TimeoutError       (* asyncio.TimeoutError *)
| JSONDecodeError    (* json.JSONDecodeError *)
| AttributeError
| TypeError
| ValueError
| OverflowError
| KeyError
| PlainException.    (* Exception(...) raised by the program itself *)

Record exn : Type := MkExn { exn_cls : exn_class; exn_msg : string }.

Inductive res (A : Type) : Type :=
| Ok (a : A)
| Raise (e : exn).
Arguments Ok {A} a.
Arguments Raise {A} e.

Definition res_bind {A B : Type} (r : res A) (k : A -> res B) : res B :=
  match r with
  | Ok a => k a
  | Raise e => Raise e
  end.

(** [type(v).__name__] *)
Definition type_name (v : value) : string :=
  match v with
  | PyNone => "NoneType"
  | PyBool _ => "bool"
  | PyInt _ => "int"
  | PyFloat _ => "float"
  | PyStr _ => "str"
  | PyList _ => "list"
  | PyDict _ => "dict"
  end.

(** [bool(v)] *)
Definition truthy (v : value) : bool :=
  match v with
  | PyNone => false
  | PyBool b => b
  | PyInt n => negb (n =? 0)
  | PyFloat f => negb (PrimFloat.eqb f 0%float)
  | PyStr s => negb (String.eqb s "")
  | PyList l => match l with [] => false | _ => true end
  | PyDict d => match d with [] => false | _ => true end
  end.

(** [v == "lit"] for a string literal. *)
Definition str_is (v : value) (lit : string) : bool :=
  match v with
  | PyStr s => String.eqb s lit
  | _ => false
  end.

(** ** Dicts *)

Fixpoint dict_get (d : list (string * value)) (k : string) : option value :=
  match d with
  | [] => None
  | (k', v) :: d' => if String.eqb k' k then Some v else dict_get d' k
  end.

(** [d.get(k, default)] on a dict. *)
Definition dict_get_or (d : list (string * value)) (k : string)
  (default : value) : value :=
  match dict_get d k with
  | Some x => x
  | None => default
  end.

(** [v.get(k, default)]: only a dict has [get]. *)
Definition py_get (v : value) (k : string) (default : value) : res value :=
  match v with
  | PyDict d => Ok (dict_get_or d k default)
  | _ => Raise (MkExn AttributeError
                  ("'" ++ type_name v ++ "' object has no attribute 'get'"))
  end.

(** [d[k]] on a dict. *)
Definition dict_getitem (d : list (string * value)) (k : string) : res value :=
  match dict_get d k with
  | Some x => Ok x
  | None => Raise (MkExn KeyError ("'" ++ k ++ "'"))
  end.

(** ** Numbers

    Python compares an int with a float by their exact values, so a finite
    float is unpacked into mantissa and binary exponent. *)

Inductive number : Type :=
| NInt (n : Z)
| NFloat (f : float).

Definition as_number (v : value) : option number :=
  match v with
  | PyBool b => Some (NInt (Z.b2z b))
  | PyInt n => Some (NInt n)
  | PyFloat f => Some (NFloat f)
  | _ => None
  end.

Definition number_type_name (c : number) : string :=
  match c with
  | NInt _ => "int"
  | NFloat _ => "float"
  end.

Inductive exact : Type :=
| ExNaN
| ExInf (negative : bool)
| ExFin (m e : Z).      (* m * 2^e *)

Definition exact_of_float (f : float) : exact :=
  match Prim2SF f with
  | S754_zero _ => ExFin 0 0
  | S754_infinity s => ExInf s
  | S754_nan => ExNaN
  | S754_finite s m e => ExFin (if s then Zneg m else Zpos m) e
  end.

Definition exact_of (c : number) : exact :=
  match c with
  | NInt n => ExFin n 0
  | NFloat f => exact_of_float f
  end.

Definition exact_compare (a b : exact) : option comparison :=
  match a, b with
  | ExNaN, _ | _, ExNaN => None
  | ExInf sa, ExInf sb =>
      Some (if Bool.eqb sa sb then Eq else if sa then Lt else Gt)
  | ExInf sa, ExFin _ _ => Some (if sa then Lt else Gt)
  | ExFin _ _, ExInf sb => Some (if sb then Gt else Lt)
  | ExFin m1 e1, ExFin m2 e2 =>
      let e := Z.min e1 e2 in
      Some (Z.compare (m1 * 2 ^ (e1 - e)) (m2 * 2 ^ (e2 - e)))
  end.

(** [a > b] on numbers. *)
Definition num_gtb (a b : number) : bool :=
  match a, b with
  | NInt x, NInt y => y <? x
  | NFloat x, NFloat y => PrimFloat.ltb y x
  | _, _ =>
      match exact_compare (exact_of a) (exact_of b) with
      | Some Gt => true
      | _ => false
      end
  end.

(** [a == b] on numbers. *)
Definition num_eqb (a b : number) : bool :=
  match a, b with
  | NInt x, NInt y => x =? y
  | NFloat x, NFloat y => PrimFloat.eqb x y
  | _, _ =>
      match exact_compare (exact_of a) (exact_of b) with
      | Some Eq => true
      | _ => false
      end
  end.

(** [v > c] where [c] is a numeric literal of the program. *)
Definition py_gt (v : value) (c : number) : res bool :=
  match as_number v with
  | Some a => Ok (num_gtb a c)
  | None =>
      Raise (MkExn TypeError
               ("'>' not supported between instances of '" ++ type_name v
                ++ "' and '" ++ number_type_name c ++ "'"))
  end.

(** [v == c] where [c] is a numeric literal: never raises. *)
Definition py_eq (v : value) (c : number) : bool :=
  match as_number v with
  | Some a => num_eqb a c
  | None => false
  end.

(** [float(n)] for an int: nearest double, ties to even. *)
Definition int_to_float (n : Z) : res float :=
  match binary_normalize prec emax n 0 false with
  | S754_infinity _ =>
      Raise (MkExn OverflowError "int too large to convert to float")
  | sf => Ok (SF2Prim sf)
  end.

Fixpoint repeat_string (n : nat) (s : string) : string :=
  match n with
  | O => ""
  | S n' => s ++ repeat_string n' s
  end.

Fixpoint repeat_list {A : Type} (n : nat) (l : list A) : list A :=
  match n with
  | O => []
  | S n' => l ++ repeat_list n' l
  end.

(** [v * k] for an int literal [k]. *)
Definition py_mul_int (v : value) (k : Z) : res value :=
  match v with
  | PyBool b => Ok (PyInt (Z.b2z b * k))
  | PyInt n => Ok (PyInt (n * k))
  | PyFloat f =>
      res_bind (int_to_float k) (fun fk => Ok (PyFloat (PrimFloat.mul f fk)))
  | PyStr s => Ok (PyStr (repeat_string (Z.to_nat k) s))
  | PyList l => Ok (PyList (repeat_list (Z.to_nat k) l))
  | PyNone | PyDict _ =>
      Raise (MkExn TypeError
               ("unsupported operand type(s) for *: '" ++ type_name v
                ++ "' and 'int'"))
  end.

(** ** Text conversions *)

(** [str(n)] for an int. *)
Definition string_of_Z (n : Z) : string := NilZero.string_of_int (Z.to_int n).

Definition sign_string (negative : bool) : string :=
  if negative then "-" else "".

Definition zeros (n : nat) : string := repeat_string n "0".

(** Nearest integer, ties to even. *)
Definition Qround_half_even (q : Q) : Z :=
  let fl := Qfloor q in
  match Qcompare (q - inject_Z fl)%Q (1 # 2) with
  | Lt => fl
  | Gt => fl + 1
  | Eq => if Z.even fl then fl else fl + 1
  end.

(** The value [m * 2^e] of a finite float. *)
Definition Qbinary (m : positive) (e : Z) : Q :=
  (inject_Z (Zpos m) * Qpower (2 # 1) e)%Q.

(** [n] scaled by [10^-places] in fixed notation, for [n >= 0]. *)
Definition fixed_digits (n : Z) (places : nat) : string :=
  let s := string_of_Z n in
  let s := zeros (S places - String.length s) ++ s in
  let cut := (String.length s - places)%nat in
  substring 0 cut s ++ "." ++ substring cut places s.

(** [format(f, ".4f")] for a float. *)
Definition format_float_4f (f : float) : string :=
  match Prim2SF f with
  | S754_nan => "nan"
  | S754_infinity s => sign_string s ++ "inf"
  | S754_zero s => sign_string s ++ "0.0000"
  | S754_finite s m e =>
      sign_string s
      ++ fixed_digits (Qround_half_even (Qbinary m e * inject_Z 10000)%Q) 4
  end.

(** [format(v, ".4f")], the format spec of [current_backpressure_percent]:
    an int is converted to a float first. *)
Definition format_4f (v : value) : res string :=
  match v with
  | PyBool b =>
      res_bind (int_to_float (Z.b2z b)) (fun f => Ok (format_float_4f f))
  | PyInt n => res_bind (int_to_float n) (fun f => Ok (format_float_4f f))
  | PyFloat f => Ok (format_float_4f f)
  | PyStr _ =>
      Raise (MkExn ValueError
               "Unknown format code 'f' for object of type 'str'")
  | PyNone | PyList _ | PyDict _ =>
      Raise (MkExn TypeError
               ("unsupported format string passed to " ++ type_name v
                ++ ".__format__"))
  end.

(** *** [repr] of a float: the shortest digit string that reads back as the
    same double. *)

(** The reals that round to the double [m * 2^e]: both ends of the interval,
    and whether the ends belong to it (they do when the mantissa is even). *)
Definition rounding_interval (m : positive) (e : Z) : Q * Q * bool :=
  let v := Qbinary m e in
  let below :=
    if (Zpos m =? 2 ^ 52) && (-1074 <? e)
    then Qpower (2 # 1) (e - 2)
    else Qpower (2 # 1) (e - 1) in
  ((v - below)%Q, (v + Qpower (2 # 1) (e - 1))%Q, Z.even (Zpos m)).

Definition in_interval (i : Q * Q * bool) (c : Q) : bool :=
  let '(lo, hi, closed) := i in
  if closed
  then Qle_bool lo c && Qle_bool c hi
  else negb (Qle_bool c lo) && negb (Qle_bool hi c).

(** The [t] with [10^(t-1) <= v < 10^t], searched upwards from [t]. *)
Fixpoint decimal_point (fuel : nat) (v : Q) (t : Z) : Z :=
  match fuel with
  | O => t
  | S fuel' =>
      if Qle_bool (Qpower (10 # 1) t) v
      then decimal_point fuel' v (t + 1)
      else t
  end.

(** A lower estimate of that [t], from the position of the leading bit:
    [2^b <= v] gives [b * log10 2 <= log10 v]. *)
Definition decimal_point_below (m : positive) (e : Z) : Z :=
  (Z.log2 (Zpos m) + e) * 30103 / 100000 - 1.

(** With [k] digits and more: the digits [d] and exponent [p] of the
    decimal [d * 10^p] nearest to [v] that lies in the interval. *)
Fixpoint shortest_digits (fuel : nat) (i : Q * Q * bool) (v : Q) (t k : Z)
  : Z * Z :=
  let p := t - k in
  let s := (v * Qpower (10 # 1) (- p))%Q in
  let d := Qfloor s in
  match fuel with
  | O => (Qround_half_even s, p)
  | S fuel' =>
      let ok_lo := in_interval i (inject_Z d * Qpower (10 # 1) p)%Q in
      let ok_hi := in_interval i (inject_Z (d + 1) * Qpower (10 # 1) p)%Q in
      match ok_lo, ok_hi with
      | true, true => (Qround_half_even s, p)
      | true, false => (d, p)
      | false, true => (d + 1, p)
      | false, false => shortest_digits fuel' i v t (k + 1)
      end
  end.

(** Trailing zeros of the digits move into the exponent. *)
Fixpoint strip_zeros (fuel : nat) (d p : Z) : Z * Z :=
  match fuel with
  | O => (d, p)
  | S fuel' =>
      if (d mod 10 =? 0) && negb (d =? 0)
      then strip_zeros fuel' (d / 10) (p + 1)
      else (d, p)
  end.

Definition exponent_digits (x : Z) : string :=
  let s := string_of_Z (Z.abs x) in
  (if x <? 0 then "-" else "+") ++ zeros (2 - String.length s) ++ s.

(** Layout of the digits [ds] with the decimal point after [decpt] of them. *)
Definition layout_repr (ds : string) (decpt : Z) : string :=
  let n := Z.of_nat (String.length ds) in
  if (16 <? decpt) || (decpt <? -3)
  then
    substring 0 1 ds
    ++ (if 1 <? n then "." ++ substring 1 (String.length ds - 1) ds else "")
    ++ "e" ++ exponent_digits (decpt - 1)
  else if decpt <=? 0
  then "0." ++ zeros (Z.to_nat (- decpt)) ++ ds
  else if n <=? decpt
  then ds ++ zeros (Z.to_nat (decpt - n)) ++ ".0"
  else
    substring 0 (Z.to_nat decpt) ds ++ "."
    ++ substring (Z.to_nat decpt) (String.length ds - Z.to_nat decpt) ds.

(** [repr(f)], which is also [str(f)]. *)
Definition repr_float (f : float) : string :=
  match Prim2SF f with
  | S754_nan => "nan"
  | S754_infinity s => sign_string s ++ "inf"
  | S754_zero s => sign_string s ++ "0.0"
  | S754_finite s m e =>
      let v := Qbinary m e in
      let t := decimal_point 8 v (decimal_point_below m e) in
      let '(d, p) := shortest_digits 16 (rounding_interval m e) v t 1 in
      let '(d, p) := strip_zeros 400 d p in
      let ds := string_of_Z d in
      sign_string s ++ layout_repr ds (Z.of_nat (String.length ds) + p)
  end.

(** *** [repr] and [str] of values *)

Definition dquote : string := String "034"%char "".
Definition backslash : string := String "092"%char "".

Definition hex_digit (n : nat) : string :=
  substring n 1 "0123456789abcdef".

Definition hex2 (n : nat) : string :=
  hex_digit (n / 16) ++ hex_digit (n mod 16).

Fixpoint string_mem (c : ascii) (s : string) : bool :=
  match s with
  | EmptyString => false
  | String c' s' => Ascii.eqb c c' || string_mem c s'
  end.

Fixpoint string_flat_map (f : ascii -> string) (s : string) : string :=
  match s with
  | EmptyString => ""
  | String c s' => f c ++ string_flat_map f s'
  end.

(** [repr] of one character inside the quotes [quote]. *)
Definition repr_char (quote : ascii) (c : ascii) : string :=
  let n := nat_of_ascii c in
  if Ascii.eqb c quote || Ascii.eqb c "092"%char
  then backslash ++ String c ""
  else if (n =? 9)%nat then backslash ++ "t"
  else if (n =? 10)%nat then backslash ++ "n"
  else if (n =? 13)%nat then backslash ++ "r"
  else if (n <? 32)%nat || (n =? 127)%nat then backslash ++ "x" ++ hex2 n
  else if (n <? 127)%nat then String c ""
  else if (161 <=? n)%nat && negb (n =? 173)%nat then String c ""
  else backslash ++ "x" ++ hex2 n.

(** [repr(s)]: single quotes, unless [s] holds one and no double quote. *)
Definition repr_str (s : string) : string :=
  let quote :=
    if string_mem "'"%char s && negb (string_mem "034"%char s)
    then "034"%char else "'"%char in
  String quote "" ++ string_flat_map (repr_char quote) s ++ String quote "".

Fixpoint py_repr (v : value) : string :=
  match v with
  | PyNone => "None"
  | PyBool b => if b then "True" else "False"
  | PyInt n => string_of_Z n
  | PyFloat f => repr_float f
  | PyStr s => repr_str s
  | PyList l => "[" ++ String.concat ", " (map py_repr l) ++ "]"
  | PyDict d =>
      "{"
      ++ String.concat ", "
           (map (fun kv => let '(k, x) := kv in
                           repr_str k ++ ": " ++ py_repr x) d)
      ++ "}"
  end.

(** [str(v)], which an f-string applies to a field without format spec. *)
Definition py_str (v : value) : string :=
  match v with
  | PyStr s => s
  | _ => py_repr v
  end.

(** *** [json.dumps] *)

Definition json_char (c : ascii) : string :=
  let n := nat_of_ascii c in
  if (n =? 34)%nat then backslash ++ dquote
  else if (n =? 92)%nat then backslash ++ backslash
  else if (n =? 10)%nat then backslash ++ "n"
  else if (n =? 13)%nat then backslash ++ "r"
  else if (n =? 9)%nat then backslash ++ "t"
  else if (n =? 12)%nat then backslash ++ "f"
  else if (n =? 8)%nat then backslash ++ "b"
  else if (n <? 32)%nat || (126 <? n)%nat then backslash ++ "u00" ++ hex2 n
  else String c "".

Definition json_string (s : string) : string :=
  dquote ++ string_flat_map json_char s ++ dquote.

Definition json_float (f : float) : string :=
  match Prim2SF f with
  | S754_nan => "NaN"
  | S754_infinity s => sign_string s ++ "Infinity"
  | _ => repr_float f
  end.

Definition newline : string := String "010"%char "".

(** [json.dumps(v, indent=indent)] at nesting depth [level]; [indent = None]
    is the compact form with [", "] between items. *)
Fixpoint json_dumps_at (indent : option nat) (level : nat) (v : value)
  : string :=
  let inner :=
    match indent with
    | Some w => newline ++ repeat_string (w * S level) " "
    | None => ""
    end in
  let outer :=
    match indent with
    | Some w => newline ++ repeat_string (w * level) " "
    | None => ""
    end in
  let separator :=
    match indent with
    | Some _ => "," ++ inner
    | None => ", "
    end in
  match v with
  | PyNone => "null"
  | PyBool b => if b then "true" else "false"
  | PyInt n => string_of_Z n
  | PyFloat f => json_float f
  | PyStr s => json_string s
  | PyList [] => "[]"
  | PyList l =>
      "[" ++ inner
      ++ String.concat separator (map (json_dumps_at indent (S level)) l)
      ++ outer ++ "]"
  | PyDict [] => "{}"
  | PyDict d =>
      "{" ++ inner
      ++ String.concat separator
           (map (fun kv => let '(k, x) := kv in
                           json_string k ++ ": "
                           ++ json_dumps_at indent (S level) x) d)
      ++ outer ++ "}"
  end.

Definition json_dumps (indent : option nat) (v : value) : string :=
  json_dumps_at indent 0 v.

(** ** The upstream

    The program reaches Logstash through two aiohttp calls: the probe
    [session.get(url)] of [check_connectivity] and [session.request(method,
    url, json=data)] of [make_request].  No handler issues the same call
    twice, so what the upstream answers during one handler run is a function
    of the call.  The calls made are collected in order. *)

Inductive call : Type :=
| HttpGet (url : string)
| HttpRequest (method url : string).

Record http_response : Type := MkResponse {
  status : Z;                          (* response.status *)
  x_response_time : option string;     (* response.headers.get("x-response-time") *)
  json_body : res value;               (* await response.json() *)
  text_body : res string               (* await response.text() *)
}.

Record environment : Type := MkEnv {
  LOGSTASH_BASE_URL : string;
  urljoin : string -> string -> string;    (* urllib.parse.urljoin *)
  json_loads : string -> res value;        (* json.loads *)
  http : call -> res http_response         (* Raise: no response came back *)
}.

(** A computation yields a value or raises, and lists the calls it made. *)
Definition M (A : Type) : Type := (res A * list call)%type.

Definition ret {A : Type} (a : A) : M A := (Ok a, []).

Definition raise {A : Type} (e : exn) : M A := (Raise e, []).

Definition lift {A : Type} (r : res A) : M A := (r, []).

Definition bind {A B : Type} (m : M A) (k : A -> M B) : M B :=
  match m with
  | (Ok a, calls) => let '(r, calls') := k a in (r, (calls ++ calls')%list)
  | (Raise e, calls) => (Raise e, calls)
  end.

(** [try: m except <those e with handles e = true> as e: handler e] *)
Definition try_except {A : Type} (m : M A) (handles : exn -> bool)
  (handler : exn -> M A) : M A :=
  match m with
  | (Ok a, calls) => (Ok a, calls)
  | (Raise e, calls) =>
      if handles e
      then let '(r, calls') := handler e in (r, (calls ++ calls')%list)
      else (Raise e, calls)
  end.

Declare Scope monad_scope.
Delimit Scope monad_scope with monad.
Notation "x <- m ;; k" := (bind m (fun x => k))
  (at level 100, m at next level, right associativity) : monad_scope.
Local Open Scope monad_scope.

Definition any_exception (_ : exn) : bool := true.

Definition is_client_error (e : exn) : bool :=
  match exn_cls e with
  | ClientError => true
  | _ => false
  end.

Section Upstream.

Variable env : environment.

Definition perform (c : call) : M http_response := (http env c, [c]).

(** [make_request(endpoint)]; every caller leaves [method] and [data] at
    their defaults. *)
Definition make_request (endpoint : string) : M value :=
  let url := urljoin env (LOGSTASH_BASE_URL env) endpoint in
  try_except
    (response <- perform (HttpRequest "GET" url) ;;
     if status response =? 200
     then lift (json_body response)
     else
       error_text <- lift (text_body response) ;;
       raise (MkExn PlainException
                ("HTTP " ++ string_of_Z (status response) ++ ": "
                 ++ error_text)))
    is_client_error
    (fun e =>
       raise (MkExn PlainException
                ("Failed to connect to Logstash at " ++ url ++ ": "
                 ++ exn_msg e))).

(** [x or "unknown"] *)
Definition or_unknown (x : value) : value :=
  if truthy x then x else PyStr "unknown".

(** [check_connectivity()]: the items of the dict it returns. *)
Definition check_connectivity : M (list (string * value)) :=
  try_except
    (let url := urljoin env (LOGSTASH_BASE_URL env) "/_node" in
     response <- perform (HttpGet url) ;;
     if status response =? 200
     then
       node_info <- lift (json_body response) ;;
       version <- lift (py_get node_info "version" (PyStr "unknown")) ;;
       host <- lift (py_get node_info "host" (PyStr "unknown")) ;;
       timestamp <- lift (py_get node_info "timestamp" PyNone) ;;
       ret [("status", PyStr "connected");
            ("url", PyStr (LOGSTASH_BASE_URL env));
            ("version", version);
            ("host", host);
            ("response_time_ms",
             PyStr (match x_response_time response with
                    | Some t => t
                    | None => "unknown"
                    end));
            ("timestamp", or_unknown timestamp)]
     else
       message <- lift (text_body response) ;;
       ret [("status", PyStr "error");
            ("url", PyStr (LOGSTASH_BASE_URL env));
            ("error", PyStr ("HTTP " ++ string_of_Z (status response)));
            ("message", PyStr message)])
    any_exception
    (fun e =>
       ret [("status", PyStr "unreachable");
            ("url", PyStr (LOGSTASH_BASE_URL env));
            ("error", PyStr (exn_msg e));
            ("suggestion",
             PyStr "Verify Logstash URL and network connectivity")]).

(** ** The composite health check *)

(** The [health_status] dict; its keys are fixed when it is created. *)
Record health_status : Type := MkHealth {
  overall_status : string;
  timestamp : value;
  logstash_version : value;
  issues : list value;
  recommendations : list value
}.

Definition initial_health : health_status :=
  MkHealth "healthy" PyNone PyNone [] [].

Definition health_dict (h : health_status) : value :=
  PyDict [("overall_status", PyStr (overall_status h));
          ("timestamp", timestamp h);
          ("logstash_version", logstash_version h);
          ("issues", PyList (issues h));
          ("recommendations", PyList (recommendations h))].

(** Set [logstash_version] and [timestamp]. *)
Definition set_node_info (h : health_status) (version stamp : value)
  : health_status :=
  MkHealth (overall_status h) stamp version (issues h) (recommendations h).

(** Append an issue and a recommendation, and set [overall_status]. *)
Definition report (h : health_status) (issue recommendation : string)
  (new_status : string) : health_status :=
  MkHealth new_status (timestamp h) (logstash_version h)
    (issues h ++ [PyStr issue])
    (recommendations h ++ [PyStr recommendation]).

Definition heap_issue (heap_percent : value) : string :=
  "High JVM heap usage: " ++ py_str heap_percent ++ "%".

Definition heap_advice : string :=
  "Consider increasing JVM heap size or optimizing memory usage".

(** The block under [# Check JVM heap usage]. *)
Definition check_heap (node_stats : value) (h : health_status)
  : res health_status :=
  res_bind (py_get node_stats "jvm" (PyDict [])) (fun jvm_stats =>
  match jvm_stats with
  | PyDict jvm =>
      match dict_get jvm "mem" with
      | Some mem =>
          res_bind (py_get mem "heap_used_percent" (PyInt 0))
            (fun heap_percent =>
          res_bind (py_gt heap_percent (NInt 80)) (fun high =>
          if high
          then Ok (report h (heap_issue heap_percent) heap_advice "warning")
          else Ok h))
      | None => Ok h
      end
  | _ => Ok h
  end).

Definition pipeline_issue (pipeline_id : string) : string :=
  "Pipeline " ++ pipeline_id ++ " has filtered events but no output".

Definition pipeline_advice (pipeline_id : string) : string :=
  "Check pipeline " ++ pipeline_id ++ " configuration for output issues".

(** One iteration of the loop over [pipelines.items()]. *)
Definition check_pipeline (pipeline_id : string) (stats : value)
  (h : health_status) : res health_status :=
  match stats with
  | PyDict st =>
      match dict_get st "events" with
      | Some events =>
          res_bind (py_get events "filtered" (PyInt 0)) (fun filtered =>
          res_bind (py_get events "out" (PyInt 0)) (fun out =>
          res_bind (py_gt filtered (NInt 0)) (fun positive =>
          if positive && py_eq out (NInt 0)
          then Ok (report h (pipeline_issue pipeline_id)
                     (pipeline_advice pipeline_id) "warning")
          else Ok h)))
      | None => Ok h
      end
  | _ => Ok h
  end.

(** The loop, inside [try: ... except: pass]: the first exception ends it
    and what was recorded before stays. *)
Fixpoint check_pipelines (items : list (string * value)) (h : health_status)
  : health_status :=
  match items with
  | [] => h
  | (pipeline_id, stats) :: rest =>
      match check_pipeline pipeline_id stats h with
      | Ok h' => check_pipelines rest h'
      | Raise _ => h
      end
  end.

(** The block under [# Check pipeline performance]. *)
Definition check_pipeline_performance (h : health_status) : M health_status :=
  try_except
    (pipeline_stats <- make_request "/_node/stats/pipelines?human=true" ;;
     pipelines <- lift (py_get pipeline_stats "pipelines" (PyDict [])) ;;
     match pipelines with
     | PyDict items => ret (check_pipelines items h)
     | _ =>
         raise (MkExn AttributeError
                  ("'" ++ type_name pipelines
                   ++ "' object has no attribute 'items'"))
     end)
    any_exception
    (fun _ => ret h).

(** What [health_check] returns for an exception [e]. *)
Definition health_error (e : exn) : value :=
  PyDict [("overall_status", PyStr "unhealthy");
          ("error", PyStr (exn_msg e));
          ("timestamp", PyNone)].

(** [health_check()] *)
Definition health_check : M value :=
  try_except
    (connectivity <- check_connectivity ;;
     connection <- lift (dict_getitem connectivity "status") ;;
     if negb (str_is connection "connected")
     then
       error <- lift (dict_getitem connectivity "error") ;;
       ret (health_dict
              (MkHealth "unhealthy" PyNone PyNone
                 [PyStr ("Connectivity issue: " ++ py_str error)]
                 [dict_get_or connectivity "suggestion"
                    (PyStr "Check Logstash connectivity")]))
     else
       node_info <- make_request "/_node" ;;
       version <- lift (py_get node_info "version" (PyStr "unknown")) ;;
       stamp <- lift (py_get node_info "timestamp" PyNone) ;;
       node_stats <- make_request "/_node/stats?human=true" ;;
       h <- lift (check_heap node_stats
                    (set_node_info initial_health version stamp)) ;;
       h <- check_pipeline_performance h ;;
       ret (health_dict h))
    any_exception
    (fun e => ret (health_error e)).

End Upstream.

(** ** The tool registry *)

Definition property (name type description : string)
  (default : option value) : string * value :=
  (name,
   PyDict ([("type", PyStr type); ("description", PyStr description)]
           ++ match default with
              | Some v => [("default", v)]
              | None => []
              end)).

Definition human_property : string * value :=
  property "human" "boolean" "Format output for human readability"
    (Some (PyBool true)).

Definition id_property : string * value :=
  property "id" "string" "Pipeline ID to get statistics for" None.

Definition threads_property : string * value :=
  property "threads" "integer" "Number of hot threads to return"
    (Some (PyInt 3)).

Definition tool (name description : string)
  (properties : list (string * value)) (required : list value) : value :=
  PyDict [("name", PyStr name);
          ("description", PyStr description);
          ("inputSchema",
           PyDict [("type", PyStr "object");
                   ("properties", PyDict properties);
                   ("required", PyList required)])].

(** [get_tools()] *)
Definition get_tools : list value :=
  [
    tool "logstash_check_connectivity"
      "Check connectivity to Logstash instance with detailed diagnostics"
      [] [];
    tool "logstash_node_info"
      "Get Logstash node information including version and settings"
      [] [];
    tool "logstash_node_stats"
      "Get comprehensive node statistics including JVM and process metrics"
      [human_property] [];
    tool "logstash_pipelines_stats"
      "Get statistics for all Logstash pipelines"
      [human_property] [];
    tool "logstash_pipeline_stats"
      "Get statistics for a specific pipeline"
      [id_property; human_property] [PyStr "id"];
    tool "logstash_hot_threads"
      "Get hot threads information for performance debugging"
      [threads_property; human_property] [];
    tool "logstash_plugins"
      "List all installed Logstash plugins"
      [] [];
    tool "check_backpressure"
      "Check queue backpressure metrics to monitor pipeline performance and congestion"
      [human_property] [];
    tool "logstash_health_check"
      "Perform comprehensive health check with analysis and recommendations"
      [] [];
    tool "logstash_jvm_stats"
      "Get detailed JVM statistics for memory analysis"
      [human_property] [];
    tool "logstash_health_report"
      "Get detailed health report from Logstash"
      [] [];
    tool "flow_metrics"
      "Get detailed flow metrics including throughput, backpressure, and worker concurrency. Reference: https://www.elastic.co/docs/api/doc/logstash/operation/operation-nodestatsflow"
      [human_property] []
  ].

(** ** Tool calls *)

(** The [elif] chain over [current_backpressure]: status and recommendation. *)
Definition classify_backpressure (current_backpressure : value)
  : res (string * string) :=
  res_bind (py_gt current_backpressure (NFloat 0.1)) (fun critical =>
  if critical
  then Ok ("critical",
           "High backpressure detected! Consider scaling workers or optimizing filters")
  else
  res_bind (py_gt current_backpressure (NFloat 0.05)) (fun warning =>
  if warning
  then Ok ("warning",
           "Moderate backpressure detected. Monitor closely and consider optimization")
  else
  res_bind (py_gt current_backpressure (NFloat 0.01)) (fun caution =>
  if caution
  then Ok ("caution",
           "Slight backpressure detected. Normal under heavy load")
  else Ok ("healthy", "Queue backpressure is at normal levels")))).

(** The f-string [{current_backpressure * 100:.4f}%]. *)
Definition percent_string (current_backpressure : value) : res string :=
  res_bind (py_mul_int current_backpressure 100) (fun scaled =>
  res_bind (format_4f scaled) (fun digits => Ok (digits ++ "%"))).

(** [check_backpressure], from the flow snapshot on. *)
Definition backpressure_report (flow_stats : value) : res value :=
  res_bind (py_get flow_stats "flow" (PyDict [])) (fun flow_data =>
  res_bind (py_get flow_data "queue_backpressure" (PyDict []))
    (fun backpressure_data =>
  if truthy backpressure_data
  then
    res_bind (py_get backpressure_data "current" (PyInt 0))
      (fun current_backpressure =>
    res_bind (classify_backpressure current_backpressure) (fun verdict =>
    res_bind (py_get flow_stats "timestamp" PyNone) (fun stamp =>
    res_bind (percent_string current_backpressure) (fun percent =>
    res_bind (py_get backpressure_data "last_1_minute" (PyInt 0))
      (fun trend_1min =>
    res_bind (py_get backpressure_data "last_5_minutes" (PyInt 0))
      (fun trend_5min =>
    res_bind (py_get backpressure_data "last_15_minutes" (PyInt 0))
      (fun trend_15min =>
    res_bind (py_get backpressure_data "lifetime" (PyInt 0)) (fun baseline =>
    Ok (PyDict [("timestamp", stamp);
                ("status", PyStr (fst verdict));
                ("recommendation", PyStr (snd verdict));
                ("queue_backpressure", backpressure_data);
                ("current_backpressure_percent", PyStr percent);
                ("analysis",
                 PyDict [("trend_1min", trend_1min);
                         ("trend_5min", trend_5min);
                         ("trend_15min", trend_15min);
                         ("baseline", baseline)])])))))))))
  else Ok (PyDict [("error", PyStr "Backpressure data not available")]))).

(** [flow_metrics.get(key, {}).get("current", 0)] *)
Definition current_of (flow_metrics : value) (key : string) : res value :=
  res_bind (py_get flow_metrics key (PyDict [])) (fun sample =>
  py_get sample "current" (PyInt 0)).

(** [flow_metrics], from the node statistics on. *)
Definition flow_report (full_stats : value) : res value :=
  res_bind (py_get full_stats "flow" (PyDict [])) (fun flow_metrics =>
  if truthy flow_metrics
  then
    res_bind (py_get full_stats "timestamp" PyNone) (fun stamp =>
    res_bind (current_of flow_metrics "worker_concurrency") (fun workers =>
    res_bind (current_of flow_metrics "queue_backpressure") (fun pressure =>
    res_bind (current_of flow_metrics "input_throughput") (fun input =>
    res_bind (current_of flow_metrics "output_throughput") (fun output =>
    Ok (PyDict [("timestamp", stamp);
                ("flow_metrics", flow_metrics);
                ("summary",
                 PyDict [("current_worker_concurrency", workers);
                         ("current_queue_backpressure", pressure);
                         ("input_throughput", input);
                         ("output_throughput", output)])]))))))
  else Ok (PyDict [("error", PyStr "Flow metrics not available")])).

(** [base + (suffix if arguments.get("human", True) else "")] *)
Definition with_human (arguments : value) (base suffix : string)
  : res string :=
  res_bind (py_get arguments "human" (PyBool true)) (fun human =>
  Ok (base ++ (if truthy human then suffix else ""))).

(** What [handle_tool_call] returns for an exception [e]. *)
Definition tool_error (e : exn) (name arguments : value) : value :=
  PyDict [("error", PyStr (exn_msg e));
          ("tool", name);
          ("arguments", arguments)].

(** The result of a [tools/call]: one text block with the JSON of the tool's
    result, indented by two. *)
Definition text_content (result : value) : value :=
  PyDict [("content",
           PyList [PyDict [("type", PyStr "text");
                           ("text", PyStr (json_dumps (Some 2%nat) result))]])].

Section Handlers.

Variable env : environment.

(** [handle_tool_call(name, arguments)] *)
Definition handle_tool_call (name arguments : value) : M value :=
  try_except
    (if str_is name "logstash_check_connectivity" then
       connectivity <- check_connectivity env ;;
       ret (PyDict connectivity)
     else if str_is name "logstash_node_info" then
       make_request env "/_node"
     else if str_is name "logstash_node_stats" then
       endpoint <- lift (with_human arguments "/_node/stats" "?human=true") ;;
       make_request env endpoint
     else if str_is name "logstash_pipelines_stats" then
       endpoint <- lift (with_human arguments "/_node/stats/pipelines"
                           "?human=true") ;;
       make_request env endpoint
     else if str_is name "logstash_pipeline_stats" then
       pipeline_id <- lift (py_get arguments "id" PyNone) ;;
       if negb (truthy pipeline_id)
       then raise (MkExn ValueError "Pipeline ID is required")
       else
         endpoint <- lift (with_human arguments
                             ("/_node/stats/pipelines/" ++ py_str pipeline_id)
                             "?human=true") ;;
         make_request env endpoint
     else if str_is name "logstash_hot_threads" then
       threads <- lift (py_get arguments "threads" (PyInt 3)) ;;
       endpoint <- lift (with_human arguments
                           ("/_node/hot_threads?threads=" ++ py_str threads)
                           "&human=true") ;;
       make_request env endpoint
     else if str_is name "logstash_plugins" then
       make_request env "/_node/plugins"
     else if str_is name "check_backpressure" then
       endpoint <- lift (with_human arguments "/_node/stats/flow"
                           "?human=true") ;;
       flow_stats <- make_request env endpoint ;;
       lift (backpressure_report flow_stats)
     else if str_is name "logstash_health_check" then
       health_check env
     else if str_is name "logstash_jvm_stats" then
       endpoint <- lift (with_human arguments "/_node/stats/jvm"
                           "?human=true") ;;
       make_request env endpoint
     else if str_is name "logstash_health_report" then
       make_request env "/_health_report"
     else if str_is name "flow_metrics" then
       endpoint <- lift (with_human arguments "/_node/stats" "?human=true") ;;
       full_stats <- make_request env endpoint ;;
       lift (flow_report full_stats)
     else
       raise (MkExn ValueError ("Unknown tool: " ++ py_str name)))
    any_exception
    (fun e => ret (tool_error e name arguments)).

(** ** Requests *)

Definition error_envelope (request_id : value) (code : Z) (message : string)
  : value :=
  PyDict [("jsonrpc", PyStr "2.0");
          ("id", request_id);
          ("error",
           PyDict [("code", PyInt code); ("message", PyStr message)])].

Definition result_envelope (request_id result : value) : value :=
  PyDict [("jsonrpc", PyStr "2.0"); ("id", request_id); ("result", result)].

(** [handle_request(request_data)]: the response and the new value of the
    global [is_initialized]. *)
Definition handle_request (is_initialized : bool) (request_data : value)
  : M (value * bool) :=
  method <- lift (py_get request_data "method" PyNone) ;;
  request_id <- lift (py_get request_data "id" PyNone) ;;
  params <- lift (py_get request_data "params" (PyDict [])) ;;
  try_except
    (if str_is method "initialize" then
       ret (result_envelope request_id
              (PyDict [("capabilities", PyDict []);
                       ("serverInfo",
                        PyDict [("name", PyStr "logstash-mcp");
                                ("version", PyStr "1.0.0")])]),
            true)
     else if str_is method "tools/list" then
       if negb is_initialized
       then raise (MkExn PlainException "Server not initialized")
       else
         ret (result_envelope request_id
                (PyDict [("tools", PyList get_tools)]),
              is_initialized)
     else if str_is method "tools/call" then
       if negb is_initialized
       then raise (MkExn PlainException "Server not initialized")
       else
         tool_name <- lift (py_get params "name" PyNone) ;;
         arguments <- lift (py_get params "arguments" (PyDict [])) ;;
         result <- handle_tool_call tool_name arguments ;;
         ret (result_envelope request_id (text_content result),
              is_initialized)
     else
       raise (MkExn PlainException ("Unknown method: " ++ py_str method)))
    any_exception
    (fun e => ret (error_envelope request_id (-32602) (exn_msg e),
                   is_initialized)).

End Handlers.

(** ** The read loop of [main] *)

(** [c.isspace()] *)
Definition is_space (c : ascii) : bool :=
  let n := nat_of_ascii c in
  ((9 <=? n) && (n <=? 13) || (28 <=? n) && (n <=? 32)
   || (n =? 133) || (n =? 160))%nat.

Fixpoint lstrip (s : string) : string :=
  match s with
  | String c s' => if is_space c then lstrip s' else s
  | EmptyString => ""
  end.

Fixpoint rstrip (s : string) : string :=
  match s with
  | String c s' =>
      match rstrip s' with
      | EmptyString => if is_space c then "" else String c ""
      | rest => String c rest
      end
  | EmptyString => ""
  end.

(** [line.strip()] *)
Definition strip (line : string) : string := rstrip (lstrip line).

Definition is_json_decode_error (e : exn) : bool :=
  match exn_cls e with
  | JSONDecodeError => true
  | _ => false
  end.

(** One turn of the loop on a line that was read (not the end of input):
    what is printed, if anything, and the new [is_initialized].  [Raise] is
    an exception that leaves [main]. *)
Definition main_step (env : environment) (is_initialized : bool)
  (line : string) : M (option string * bool) :=
  let line := strip line in
  if String.eqb line ""
  then ret (None, is_initialized)
  else
    try_except
      (request <- lift (json_loads env line) ;;
       answer <- handle_request env is_initialized request ;;
       ret (Some (json_dumps None (fst answer)), snd answer))
      is_json_decode_error
      (fun e =>
         ret (Some (json_dumps None
                      (error_envelope PyNone (-32700)
                         ("Parse error: " ++ exn_msg e))),
              is_initialized)).

(** The read loop of [main], after the banner.  A turn is a line that
    [readline] returned, with the upstream as it stands while the line is
    handled; the empty line is the end of the input, as is the end of the
    turns.  The outcome lists what was printed and the calls made, and tells
    how the loop ended: [Ok] with the last [is_initialized] when it left by
    [break], [Raise] when an exception left [main]. *)
Record loop_outcome : Type := MkOutcome {
  printed : list string;
  ending : res bool;
  calls_made : list call
}.

Fixpoint main_loop (is_initialized : bool)
  (turns : list (environment * string)) : loop_outcome :=
  match turns with
  | [] => MkOutcome [] (Ok is_initialized) []
  | (env, line) :: rest =>
      if String.eqb line ""
      then MkOutcome [] (Ok is_initialized) []
      else
        match main_step env is_initialized line with
        | (Ok (out, state), calls) =>
            let later := main_loop state rest in
            MkOutcome
              (match out with
               | Some text => text :: printed later
               | None => printed later
               end)
              (ending later)
              (calls ++ calls_made later)
        | (Raise e, calls) => MkOutcome [] (Raise e) calls
        end
  end.

(** ** Sample upstreams

    Concrete environments on which the statements below are run. *)

Definition sample_urljoin (base url : string) : string := base ++ url.

Definition reject_json (_ : string) : res value :=
  Raise (MkExn JSONDecodeError "Expecting value: line 1 column 1 (char 0)").

Definition respond_json (body : value) : res http_response :=
  Ok (MkResponse 200 None (Ok body) (Ok (json_dumps None body))).

Definition respond_error (code : Z) (text : string) : res http_response :=
  Ok (MkResponse code None (Raise (MkExn ClientError text)) (Ok text)).

(** A Logstash at [http://localhost:9600] that serves [routes], a document
    per URL, and answers 404 elsewhere. *)
Definition serving (routes : list (string * value)) : environment :=
  MkEnv "http://localhost:9600" sample_urljoin reject_json
    (fun c =>
       match c with
       | HttpGet url | HttpRequest _ url =>
           match dict_get routes url with
           | Some body => respond_json body
           | None => respond_error 404 "Not Found"
           end
       end).

(** A Logstash that answers every request with 503. *)
Definition starting_up : environment :=
  MkEnv "http://localhost:9600" sample_urljoin reject_json
    (fun _ => respond_error 503 "Service Unavailable").

(** A Logstash that cannot be reached. *)
Definition unplugged : environment :=
  MkEnv "http://localhost:9600" sample_urljoin reject_json
    (fun _ => Raise (MkExn ClientError
                       "Cannot connect to host localhost:9600")).

Definition flow_url : string :=
  "http://localhost:9600/_node/stats/flow?human=true".

(** The URL of the connectivity probe. *)
Definition probe_url (env : environment) : string :=
  urljoin env (LOGSTASH_BASE_URL env) "/_node".

Definition pipeline_stats_call : list (string * value) :=
  [("jsonrpc", PyStr "2.0"); ("id", PyInt 7); ("method", PyStr "tools/call");
   ("params",
    PyDict [("name", PyStr "logstash_pipeline_stats");
            ("arguments", PyDict [("human", PyBool false)])])].

(** A flow snapshot whose [queue_backpressure] holds [fields]. *)
Definition flow_snapshot (fields : list (string * value))
  : list (string * value) :=
  [("host", PyStr "logstash-1");
   ("flow",
    PyDict [("input_throughput", PyDict [("current", PyFloat 12.5)]);
            ("queue_backpressure", PyDict fields)])].

Definition node_url : string := "http://localhost:9600/_node".

Definition stats_url : string :=
  "http://localhost:9600/_node/stats?human=true".

Definition pipelines_url : string :=
  "http://localhost:9600/_node/stats/pipelines?human=true".

Definition sample_node_info : list (string * value) :=
  [("host", PyStr "logstash-1"); ("version", PyStr "8.8.0")].

Definition sample_node_stats : list (string * value) :=
  [("jvm", PyDict [("mem", PyDict [("heap_used_percent", PyInt 85)])])].

Definition sample_pipelines : list (string * value) :=
  [("main",
    PyDict [("events",
             PyDict [("in", PyInt 1000); ("filtered", PyInt 1000);
                     ("out", PyInt 0)])]);
   ("audit",
    PyDict [("events",
             PyDict [("in", PyInt 10); ("filtered", PyInt 10);
                     ("out", PyInt 10)])])].

(** A Logstash with a high heap, a starved pipeline and a backpressure
    ratio of 0.15. *)
Definition monitored : environment :=
  serving [(node_url, PyDict sample_node_info);
           (stats_url, PyDict sample_node_stats);
           (pipelines_url, PyDict [("pipelines", PyDict sample_pipelines)]);
           (flow_url, PyDict (flow_snapshot [("current", PyFloat 0.15)]))].

(** ** Vocabulary of the statements *)

(** The backpressure classification as the specification words it: each
    bound exclusive, the highest bound first. *)
Definition spec_backpressure_status (r : number) : string :=
  if num_gtb r (NFloat 0.1) then "critical"
  else if num_gtb r (NFloat 0.05) then "warning"
  else if num_gtb r (NFloat 0.01) then "caution"
  else "healthy".

(** The status tiers in the order of the specification; "unhealthy" stands
    for the critical tier. *)
Inductive tier : Type := Healthy | Caution | Warning | Critical.

Definition tier_rank (t : tier) : nat :=
  match t with
  | Healthy => 0
  | Caution => 1
  | Warning => 2
  | Critical => 3
  end.

Definition status_tier (s : string) : option tier :=
  if String.eqb s "healthy" then Some Healthy
  else if String.eqb s "caution" then Some Caution
  else if String.eqb s "warning" then Some Warning
  else if String.eqb s "critical" then Some Critical
  else if String.eqb s "unhealthy" then Some Critical
  else None.

Definition at_least (t : tier) (s : string) : Prop :=
  exists t', status_tier s = Some t' /\ (tier_rank t <= tier_rank t')%nat.

(** An issue of the heap check. *)
Definition mentions_heap (issue : value) : bool :=
  match issue with
  | PyStr s => String.prefix "High JVM heap usage" s
  | _ => false
  end.

(** The run of [health_check] gets past the probe and fetches the node
    information and the node statistics [node_stats]. *)
Definition reaches_checks (env : environment)
  (node_stats : list (string * value)) : Prop :=
  (exists response probe_info,
      http env (HttpGet (probe_url env)) = Ok response
      /\ status response = 200
      /\ json_body response = Ok (PyDict probe_info))
  /\ (exists node_info,
         fst (make_request env "/_node") = Ok (PyDict node_info))
  /\ fst (make_request env "/_node/stats?human=true")
     = Ok (PyDict node_stats).

(** The condition [filtered > 0 and out == 0] for one pipeline; [Ok false]
    when the pipeline has no [events]. *)
Definition pipeline_verdict (stats : value) : res bool :=
  match stats with
  | PyDict st =>
      match dict_get st "events" with
      | Some events =>
          res_bind (py_get events "filtered" (PyInt 0)) (fun filtered =>
          res_bind (py_get events "out" (PyInt 0)) (fun out =>
          res_bind (py_gt filtered (NInt 0)) (fun positive =>
          Ok (positive && py_eq out (NInt 0)))))
      | None => Ok false
      end
  | _ => Ok false
  end.

(** The event counts of a pipeline can be read: its [events], when present,
    is a dict whose [filtered] is a number. *)
Definition pipeline_readable (stats : value) : bool :=
  match pipeline_verdict stats with
  | Ok _ => true
  | Raise _ => false
  end.

(** The pipelines that the loop reports: those with a true verdict, up to
    the first one that cannot be read. *)
Fixpoint flagged (items : list (string * value)) : list string :=
  match items with
  | [] => []
  | (pipeline_id, stats) :: rest =>
      match pipeline_verdict stats with
      | Ok true => pipeline_id :: flagged rest
      | Ok false => flagged rest
      | Raise _ => []
      end
  end.

(** The issues and the recommendations that the loop records for the
    pipelines [ids]. *)
Definition issues_of (ids : list string) : list value :=
  map (fun pipeline_id => PyStr (pipeline_issue pipeline_id)) ids.

Definition advice_of (ids : list string) : list value :=
  map (fun pipeline_id => PyStr (pipeline_advice pipeline_id)) ids.

(** The names under which [get_tools] lists the tools. *)
Definition tool_names : list string :=
  flat_map (fun descriptor =>
              match descriptor with
              | PyDict d =>
                  match dict_get d "name" with
                  | Some (PyStr name) => [name]
                  | _ => []
                  end
              | _ => []
              end) get_tools.





(** The call that [make_request(endpoint)] makes. *)
Definition request_to (env : environment) (endpoint : string) : call :=
  HttpRequest "GET" (urljoin env (LOGSTASH_BASE_URL env) endpoint).

(** A call that only reads: the probe, or a request with the method GET. *)
Definition read_only (c : call) : bool :=
  match c with
  | HttpGet _ => true
  | HttpRequest method _ => String.eqb method "GET"
  end.

(** The calls of a full run of [health_check], in order. *)
Definition health_calls (env : environment) : list call :=
  [HttpGet (probe_url env);
   request_to env "/_node";
   request_to env "/_node/stats?human=true";
   request_to env "/_node/stats/pipelines?human=true"].

(** The default that [get_tools] declares for the argument [field] of the
    tool [name], if any. *)
Definition declared_default (name field : string) : option value :=
  match find (fun descriptor =>
                match descriptor with
                | PyDict d => str_is (dict_get_or d "name" PyNone) name
                | _ => false
                end) get_tools with
  | Some (PyDict d) =>
      match dict_get d "inputSchema" with
      | Some (PyDict schema) =>
          match dict_get schema "properties" with
          | Some (PyDict properties) =>
              match dict_get properties field with
              | Some (PyDict declaration) => dict_get declaration "default"
              | _ => None
              end
          | _ => None
          end
      | _ => None
      end
  | _ => None
  end.

(** The probe comes back with status 200 and a JSON object. *)
Definition probe_succeeds (env : environment) : Prop :=
  exists response probe_info,
    http env (HttpGet (probe_url env)) = Ok response
    /\ status response = 200
    /\ json_body response = Ok (PyDict probe_info).

(** What [health_check] can return: the error dict, or an assessment whose
    status goes with its issues. *)
Definition assessment (result : value) : Prop :=
  (exists e, result = health_error e)
  \/ (exists h,
         result = health_dict h
         /\ length (issues h) = length (recommendations h)
         /\ ((overall_status h = "healthy" /\ issues h = [])
             \/ (overall_status h = "warning"
                 /\ exists issue rest, issues h = issue :: rest)
             \/ (overall_status h = "unhealthy"
                 /\ exists issue, issues h = [issue]))).


(** A Logstash whose heap percentage comes as text. *)
Definition heap_as_text : environment :=
  serving [(node_url, PyDict sample_node_info);
           (stats_url,
            PyDict [("jvm",
                     PyDict [("mem",
                              PyDict [("heap_used_percent",
                                       PyStr "85%")])])])].

(** A Logstash that serves no pipeline statistics. *)
Definition without_pipelines : environment :=
  serving [(node_url, PyDict sample_node_info);
           (stats_url, PyDict sample_node_stats)].

(** What [handle_tool_call] returns when the dispatch has yielded [body]. *)
Definition tool_answer (body : res value) (name arguments : value) : value :=
  match body with
  | Ok result => result
  | Raise e => tool_error e name arguments
  end.

(** The sample that [flow_metrics] reports for the series [key] of the flow
    block: its [current], or 0 when the series or its [current] is
    missing. *)
Definition series_current (flow : list (string * value)) (key : string)
  : value :=
  match dict_get flow key with
  | Some (PyDict series) => dict_get_or series "current" (PyInt 0)
  | _ => PyInt 0
  end.

(** The series [key] of the flow block is missing or a dict. *)
Definition series_readable (flow : list (string * value)) (key : string)
  : bool :=
  match dict_get flow key with
  | Some (PyDict _) | None => true
  | Some _ => false
  end.

(** A reader that takes every line for the number 42. *)
Definition reading_numbers : environment :=
  MkEnv "http://localhost:9600" sample_urljoin (fun _ => Ok (PyInt 42))
    (fun _ => respond_error 503 "Service Unavailable").

(** A reader that takes every line for a call of [logstash_node_info], in
    front of the sample Logstash. *)
Definition reading_a_call : environment :=
  MkEnv "http://localhost:9600" sample_urljoin
    (fun _ => Ok (PyDict [("jsonrpc", PyStr "2.0"); ("id", PyInt 5);
                          ("method", PyStr "tools/call");
                          ("params",
                           PyDict [("name", PyStr "logstash_node_info")])]))
    (http monitored).



(** A Logstash that answers 503 and drops the connection before the body
    has been sent. *)
Definition broken_body : environment :=
  MkEnv "http://localhost:9600" sample_urljoin reject_json
    (fun _ =>
       Ok (MkResponse 503 None
             (Raise (MkExn ClientError "Response payload is not completed"))
             (Raise (MkExn ClientError
                       "Response payload is not completed")))).

(** Split a membership in a listed table into its cases. *)
Ltac enumerate H :=
  cbn [In] in H;
  repeat (destruct H as [H | H]; [inversion H; subst; clear H |]);
  try contradiction.

(** * Properties *)

(** ** The Python operations on known values *)

Example repr_float_examples :
  map repr_float [85.5; 0.1; 1e16; 0.00001; 100]%float
  = ["85.5"; "0.1"; "1e+16"; "1e-05"; "100.0"].
Proof. vm_compute. reflexivity. Qed.

Example percent_string_examples :
  map percent_string [PyFloat 0.012345; PyFloat 0.15; PyInt 1; PyBool false]
  = [Ok "1.2345%"; Ok "15.0000%"; Ok "100.0000%"; Ok "0.0000%"].
Proof. vm_compute. reflexivity. Qed.

Example py_str_examples :
  map py_str [PyStr "main"; PyInt 85; PyNone;
              PyList [PyInt 1; PyStr "a"]; PyDict [("k", PyBool true)]]
  = ["main"; "85"; "None"; "[1, 'a']"; "{'k': True}"].
Proof. vm_compute. reflexivity. Qed.

Example comparison_examples :
  (py_gt (PyFloat 0.1) (NFloat 0.1), py_gt (PyInt 1) (NFloat 0.1),
   py_gt (PyFloat 80.5) (NInt 80), py_gt (PyFloat nan) (NInt 80),
   py_eq (PyFloat (-0)) (NInt 0))
  = (Ok false, Ok true, Ok true, Ok false, true).
Proof. vm_compute. reflexivity. Qed.

(** A float always has a percentage; an int has one unless it is too large
    for a double. *)
Lemma percent_string_float f :
  percent_string (PyFloat f)
  = Ok (format_float_4f (PrimFloat.mul f 100) ++ "%").
Proof. reflexivity. Qed.

Example percent_string_overflow :
  percent_string (PyInt (10 ^ 400))
  = Raise (MkExn OverflowError "int too large to convert to float").
Proof. vm_compute. reflexivity. Qed.

(** ** Dicts and calls *)

Lemma dict_get_or_some d k default x :
  dict_get d k = Some x -> dict_get_or d k default = x.
Proof. unfold dict_get_or. intros ->. reflexivity. Qed.

Lemma dict_get_or_none d k default :
  dict_get d k = None -> dict_get_or d k default = default.
Proof. unfold dict_get_or. intros ->. reflexivity. Qed.

Lemma dict_get_nonempty (d : list (string * value)) k x :
  dict_get d k = Some x -> truthy (PyDict d) = true.
Proof. destruct d; [discriminate | reflexivity]. Qed.



(** [make_request] makes exactly one call, whatever comes back. *)
Lemma make_request_calls env endpoint :
  snd (make_request env endpoint)
  = [HttpRequest "GET" (urljoin env (LOGSTASH_BASE_URL env) endpoint)].
Proof.
  unfold make_request, try_except, bind, perform, lift, raise.
  destruct (http env _) as [response | e]; simpl.
  - destruct (status response =? 200).
    + destruct (json_body response) as [v | e]; simpl; [reflexivity |].
      destruct (is_client_error e); reflexivity.
    + destruct (text_body response) as [t | e]; simpl;
        try destruct (is_client_error e); reflexivity.
  - destruct (is_client_error e); reflexivity.
Qed.







(** ** Session gating *)

(** [initialize] succeeds in either state and leaves the session
    initialized. *)
Lemma initialize_opens_session env is_initialized request :
  dict_get request "method" = Some (PyStr "initialize") ->
  exists result,
    handle_request env is_initialized (PyDict request)
    = (Ok (result_envelope (dict_get_or request "id" PyNone) result, true),
       []).
Proof.
  intros Hmethod. unfold handle_request. cbn.
  rewrite (dict_get_or_some _ _ _ _ Hmethod). eexists. reflexivity.
Qed.


(** Claim C5.  While the session is uninitialized, a [tools/list] or a
    [tools/call] request, the two commands other than [initialize], is
    answered by the error "Server not initialized": nothing is executed, no
    upstream call is made and the session stays uninitialized. *)
Theorem uninitialized_commands_fail env request m :
  dict_get request "method" = Some (PyStr m) ->
  m = "tools/list" \/ m = "tools/call" ->
  handle_request env false (PyDict request)
  = (Ok (error_envelope (dict_get_or request "id" PyNone) (-32602)
           "Server not initialized", false), []).
Proof.
  intros Hmethod Hcommand. unfold handle_request.
  cbn [py_get lift bind app].
  rewrite (dict_get_or_some _ _ _ _ Hmethod).
  destruct Hcommand as [-> | ->]; reflexivity.
Qed.

Lemma uninitialized_commands_fail_witness :
  handle_request starting_up false
    (PyDict [("jsonrpc", PyStr "2.0"); ("id", PyInt 1);
             ("method", PyStr "tools/list")])
  = (Ok (error_envelope (PyInt 1) (-32602) "Server not initialized", false),
     []).
Proof.
  apply (uninitialized_commands_fail starting_up
           [("jsonrpc", PyStr "2.0"); ("id", PyInt 1);
            ("method", PyStr "tools/list")] "tools/list").
  - reflexivity.
  - left. reflexivity.
Defined.

(** ** Response envelopes *)

(** [handle_tool_call] catches every exception: it always returns. *)
Lemma handle_tool_call_returns env name arguments :
  exists result, fst (handle_tool_call env name arguments) = Ok result.
Proof.
  unfold handle_tool_call.
  match goal with
  | |- context [try_except ?body _ _] => destruct body as [[result | e] calls]
  end; eexists; reflexivity.
Qed.












(** ** Arguments of the tools *)

Example tool_names_listed :
  tool_names
  = ["logstash_check_connectivity"; "logstash_node_info";
     "logstash_node_stats"; "logstash_pipelines_stats";
     "logstash_pipeline_stats"; "logstash_hot_threads"; "logstash_plugins";
     "check_backpressure"; "logstash_health_check"; "logstash_jvm_stats";
     "logstash_health_report"; "flow_metrics"].
Proof. reflexivity. Qed.

Lemma pipeline_stats_without_id env arguments :
  dict_get arguments "id" = None ->
  handle_tool_call env (PyStr "logstash_pipeline_stats") (PyDict arguments)
  = (Ok (tool_error (MkExn ValueError "Pipeline ID is required")
           (PyStr "logstash_pipeline_stats") (PyDict arguments)), []).
Proof.
  intros Hid. unfold handle_tool_call. cbn.
  rewrite (dict_get_or_none _ _ _ Hid). reflexivity.
Qed.

(** Claim C8.  A [tools/call] of [logstash_pipeline_stats] whose arguments
    hold no [id] yields the error "Pipeline ID is required", and the list of
    upstream calls is empty: both for the tool call and for the request that
    carries it. *)
Theorem pipeline_stats_requires_id env request params arguments :
  dict_get request "method" = Some (PyStr "tools/call") ->
  dict_get_or request "params" (PyDict []) = PyDict params ->
  dict_get params "name" = Some (PyStr "logstash_pipeline_stats") ->
  dict_get_or params "arguments" (PyDict []) = PyDict arguments ->
  dict_get arguments "id" = None ->
  handle_tool_call env (PyStr "logstash_pipeline_stats") (PyDict arguments)
  = (Ok (tool_error (MkExn ValueError "Pipeline ID is required")
           (PyStr "logstash_pipeline_stats") (PyDict arguments)), [])
  /\ handle_request env true (PyDict request)
     = (Ok (result_envelope (dict_get_or request "id" PyNone)
              (text_content
                 (tool_error (MkExn ValueError "Pipeline ID is required")
                    (PyStr "logstash_pipeline_stats") (PyDict arguments))),
            true), []).
Proof.
  intros Hmethod Hparams Hname Hargs Hid.
  pose proof (pipeline_stats_without_id env arguments Hid) as Htool.
  split; [exact Htool |].
  unfold handle_request. cbn.
  rewrite (dict_get_or_some _ _ _ _ Hmethod), Hparams. cbn.
  rewrite (dict_get_or_some _ _ _ _ Hname), Hargs.
  unfold bind at 1. rewrite Htool. reflexivity.
Qed.

Lemma pipeline_stats_requires_id_witness :
  handle_tool_call starting_up (PyStr "logstash_pipeline_stats")
    (PyDict [("human", PyBool false)])
  = (Ok (tool_error (MkExn ValueError "Pipeline ID is required")
           (PyStr "logstash_pipeline_stats")
           (PyDict [("human", PyBool false)])), [])
  /\ handle_request starting_up true (PyDict pipeline_stats_call)
     = (Ok (result_envelope (PyInt 7)
              (text_content
                 (tool_error (MkExn ValueError "Pipeline ID is required")
                    (PyStr "logstash_pipeline_stats")
                    (PyDict [("human", PyBool false)]))),
            true), []).
Proof.
  apply (pipeline_stats_requires_id starting_up pipeline_stats_call
           [("name", PyStr "logstash_pipeline_stats");
            ("arguments", PyDict [("human", PyBool false)])]
           [("human", PyBool false)]); reflexivity.
Defined.




(** ** Backpressure *)

(** [check_backpressure] once the flow snapshot is there: the report, or the
    error dict of the exception that the report raised. *)
Lemma check_backpressure_run env arguments endpoint flow_stats :
  with_human (PyDict arguments) "/_node/stats/flow" "?human=true"
  = Ok endpoint ->
  fst (make_request env endpoint) = Ok flow_stats ->
  fst (handle_tool_call env (PyStr "check_backpressure") (PyDict arguments))
  = match backpressure_report flow_stats with
    | Ok report => Ok report
    | Raise e =>
        Ok (tool_error e (PyStr "check_backpressure") (PyDict arguments))
    end.
Proof.
  intros Hendpoint Hfetch.
  change (handle_tool_call env (PyStr "check_backpressure") (PyDict arguments))
    with (try_except
            (endpoint <- lift (with_human (PyDict arguments)
                                 "/_node/stats/flow" "?human=true") ;;
             flow_stats <- make_request env endpoint ;;
             lift (backpressure_report flow_stats))
            any_exception
            (fun e => ret (tool_error e (PyStr "check_backpressure")
                             (PyDict arguments)))).
  rewrite Hendpoint.
  unfold try_except, bind, lift, ret. simpl.
  destruct (make_request env endpoint) as [fetched calls].
  simpl in Hfetch. subst fetched.
  destruct (backpressure_report flow_stats); reflexivity.
Qed.

Lemma classify_number r x :
  as_number r = Some x ->
  exists recommendation,
    classify_backpressure r = Ok (spec_backpressure_status x, recommendation).
Proof.
  intros Hnum. unfold classify_backpressure, py_gt, spec_backpressure_status.
  rewrite Hnum. cbn [res_bind].
  destruct (num_gtb x (NFloat 0.1)); [eexists; reflexivity |].
  destruct (num_gtb x (NFloat 0.05)); [eexists; reflexivity |].
  destruct (num_gtb x (NFloat 0.01)); eexists; reflexivity.
Qed.

(** Claim C1.  When the flow snapshot holds a number [r] under
    [flow.queue_backpressure.current] (and the percentage of [r] can be
    formatted, as it can for every float), [check_backpressure] returns a
    report whose status follows the thresholds, each bound exclusive and the
    highest first: critical above 0.1, else warning above 0.05, else caution
    above 0.01, else healthy.  At 0.1 the status is warning, at 0.05 caution,
    at 0.01 healthy and at 0.15 critical. *)
Theorem backpressure_thresholds
  env arguments endpoint snapshot flow bp r x percent :
  with_human (PyDict arguments) "/_node/stats/flow" "?human=true"
  = Ok endpoint ->
  fst (make_request env endpoint) = Ok (PyDict snapshot) ->
  dict_get snapshot "flow" = Some (PyDict flow) ->
  dict_get flow "queue_backpressure" = Some (PyDict bp) ->
  dict_get bp "current" = Some r ->
  as_number r = Some x ->
  percent_string r = Ok percent ->
  exists report,
    fst (handle_tool_call env (PyStr "check_backpressure") (PyDict arguments))
    = Ok (PyDict report)
    /\ dict_get report "status" = Some (PyStr (spec_backpressure_status x))
    /\ (r = PyFloat 0.1 -> dict_get report "status" = Some (PyStr "warning"))
    /\ (r = PyFloat 0.05 -> dict_get report "status" = Some (PyStr "caution"))
    /\ (r = PyFloat 0.01 -> dict_get report "status" = Some (PyStr "healthy"))
    /\ (r = PyFloat 0.15 -> dict_get report "status" = Some (PyStr "critical")).
Proof.
  intros Hendpoint Hfetch Hflow Hbp Hcurrent Hnum Hpercent.
  rewrite (check_backpressure_run _ _ _ _ Hendpoint Hfetch).
  unfold backpressure_report. simpl.
  rewrite (dict_get_or_some _ _ _ _ Hflow). simpl.
  rewrite (dict_get_or_some _ _ _ _ Hbp).
  rewrite (dict_get_nonempty _ _ _ Hcurrent).
  cbn [py_get res_bind].
  rewrite (dict_get_or_some _ _ _ _ Hcurrent).
  destruct (classify_number r x Hnum) as [recommendation ->].
  rewrite Hpercent. cbn [res_bind fst snd].
  eexists. split; [reflexivity |].
  assert (Hstatus : forall f s,
             r = PyFloat f -> spec_backpressure_status (NFloat f) = s ->
             Some (PyStr (spec_backpressure_status x)) = Some (PyStr s)).
  { intros f s -> <-. simpl in Hnum. injection Hnum as <-. reflexivity. }
  cbn [dict_get String.eqb Ascii.eqb Bool.eqb].
  split; [reflexivity |].
  repeat split; intros Hr; apply (Hstatus _ _ Hr); vm_compute; reflexivity.
Qed.

Lemma backpressure_thresholds_witness :
  exists report,
    fst (handle_tool_call monitored (PyStr "check_backpressure") (PyDict []))
    = Ok (PyDict report)
    /\ dict_get report "status" = Some (PyStr "critical").
Proof.
  destruct (backpressure_thresholds monitored []
              "/_node/stats/flow?human=true"
              (flow_snapshot [("current", PyFloat 0.15)])
              [("input_throughput", PyDict [("current", PyFloat 12.5)]);
               ("queue_backpressure", PyDict [("current", PyFloat 0.15)])]
              [("current", PyFloat 0.15)]
              (PyFloat 0.15) (NFloat 0.15) "15.0000%")
    as (report & Hrun & _ & _ & _ & _ & Hcritical);
    try reflexivity.
  exists report. split; [exact Hrun | exact (Hcritical eq_refl)].
Defined.

(** The boundary values, run through the handler. *)
Example backpressure_boundaries :
  map (fun r =>
         match fst (handle_tool_call
                      (serving [(flow_url,
                                 PyDict (flow_snapshot [("current", r)]))])
                      (PyStr "check_backpressure") (PyDict [])) with
         | Ok (PyDict report) => dict_get report "status"
         | _ => None
         end)
    [PyFloat 0.1; PyFloat 0.05; PyFloat 0.01; PyFloat 0.15; PyInt 0; PyInt 1]
  = map (fun s => Some (PyStr s))
      ["warning"; "caution"; "healthy"; "critical"; "healthy"; "critical"].
Proof. vm_compute. reflexivity. Qed.

(** Claim C9.  When the flow snapshot has no [flow] block, or a [flow] block
    without [queue_backpressure], [check_backpressure] returns the error
    "Backpressure data not available" and no classification. *)
Theorem backpressure_unavailable env arguments endpoint snapshot :
  with_human (PyDict arguments) "/_node/stats/flow" "?human=true"
  = Ok endpoint ->
  fst (make_request env endpoint) = Ok (PyDict snapshot) ->
  dict_get snapshot "flow" = None
  \/ (exists flow, dict_get snapshot "flow" = Some (PyDict flow)
                   /\ dict_get flow "queue_backpressure" = None) ->
  fst (handle_tool_call env (PyStr "check_backpressure") (PyDict arguments))
  = Ok (PyDict [("error", PyStr "Backpressure data not available")]).
Proof.
  intros Hendpoint Hfetch Habsent.
  rewrite (check_backpressure_run _ _ _ _ Hendpoint Hfetch).
  unfold backpressure_report. simpl.
  destruct Habsent as [Hflow | (flow & Hflow & Hbp)].
  - rewrite (dict_get_or_none _ _ _ Hflow). reflexivity.
  - rewrite (dict_get_or_some _ _ _ _ Hflow). simpl.
    rewrite (dict_get_or_none _ _ _ Hbp). reflexivity.
Qed.

Lemma backpressure_unavailable_witness :
  fst (handle_tool_call
         (serving [(flow_url,
                    PyDict [("host", PyStr "logstash-1");
                            ("flow", PyDict [("input_throughput",
                                              PyDict [("current", PyInt 3)])])])])
         (PyStr "check_backpressure") (PyDict []))
  = Ok (PyDict [("error", PyStr "Backpressure data not available")]).
Proof.
  apply (backpressure_unavailable _ [] "/_node/stats/flow?human=true"
           [("host", PyStr "logstash-1");
            ("flow", PyDict [("input_throughput",
                              PyDict [("current", PyInt 3)])])]).
  - reflexivity.
  - reflexivity.
  - right. eexists. split; reflexivity.
Defined.

Lemma percent_of_zero : percent_string (PyInt 0) = Ok "0.0000%".
Proof. vm_compute. reflexivity. Qed.

Lemma classify_zero :
  classify_backpressure (PyInt 0)
  = Ok ("healthy", "Queue backpressure is at normal levels").
Proof. vm_compute. reflexivity. Qed.

(** Claim C10.  When [queue_backpressure] is a non-empty dict without a
    [current] field, the ratio is taken as 0: the report is a classification
    with status "healthy" and percentage "0.0000%", not an error. *)
Theorem backpressure_without_current env arguments endpoint snapshot flow bp :
  with_human (PyDict arguments) "/_node/stats/flow" "?human=true"
  = Ok endpoint ->
  fst (make_request env endpoint) = Ok (PyDict snapshot) ->
  dict_get snapshot "flow" = Some (PyDict flow) ->
  dict_get flow "queue_backpressure" = Some (PyDict bp) ->
  bp <> [] ->
  dict_get bp "current" = None ->
  exists report,
    fst (handle_tool_call env (PyStr "check_backpressure") (PyDict arguments))
    = Ok (PyDict report)
    /\ dict_get report "status" = Some (PyStr "healthy")
    /\ dict_get report "current_backpressure_percent"
       = Some (PyStr "0.0000%")
    /\ dict_get report "error" = None.
Proof.
  intros Hendpoint Hfetch Hflow Hbp Hnonempty Hcurrent.
  rewrite (check_backpressure_run _ _ _ _ Hendpoint Hfetch).
  unfold backpressure_report. simpl.
  rewrite (dict_get_or_some _ _ _ _ Hflow). simpl.
  rewrite (dict_get_or_some _ _ _ _ Hbp).
  destruct bp as [| item bp']; [contradiction |].
  cbn [truthy]. cbn [py_get res_bind].
  rewrite (dict_get_or_none _ _ _ Hcurrent).
  rewrite classify_zero, percent_of_zero. cbn [res_bind fst snd].
  eexists. split; [reflexivity |]. repeat split.
Qed.

Lemma backpressure_without_current_witness :
  exists report,
    fst (handle_tool_call
           (serving [(flow_url,
                      PyDict (flow_snapshot
                                [("last_1_minute", PyFloat 0.25)]))])
           (PyStr "check_backpressure") (PyDict []))
    = Ok (PyDict report)
    /\ dict_get report "status" = Some (PyStr "healthy")
    /\ dict_get report "current_backpressure_percent"
       = Some (PyStr "0.0000%")
    /\ dict_get report "error" = None.
Proof.
  apply (backpressure_without_current _ [] "/_node/stats/flow?human=true"
           (flow_snapshot [("last_1_minute", PyFloat 0.25)])
           [("input_throughput", PyDict [("current", PyFloat 12.5)]);
            ("queue_backpressure", PyDict [("last_1_minute", PyFloat 0.25)])]
           [("last_1_minute", PyFloat 0.25)]);
    try reflexivity.
  discriminate.
Defined.

(** ** The composite health check *)

(** Claim C3.  When the probe fails, that is, in every case but a response
    with status 200 and a JSON object as body, [health_check] returns the
    assessment "unhealthy" with exactly one issue, the connectivity issue;
    the probe is the only upstream call, so neither the node statistics nor
    the pipeline statistics are fetched. *)
Theorem connectivity_failure_short_circuits env :
  (forall response probe_info,
      http env (HttpGet (probe_url env)) = Ok response ->
      status response = 200 ->
      json_body response = Ok (PyDict probe_info) ->
      False) ->
  exists reason suggestion,
    health_check env
    = (Ok (health_dict
             (MkHealth "unhealthy" PyNone PyNone
                [PyStr ("Connectivity issue: " ++ reason)]
                [PyStr suggestion])),
       [HttpGet (probe_url env)]).
Proof.
  intros Hprobe. unfold health_check, check_connectivity, perform.
  fold (probe_url env).
  destruct (http env (HttpGet (probe_url env))) as [response | e] eqn:Hhttp;
    [| cbn; eexists _, _; reflexivity].
  specialize (Hprobe response). cbn.
  destruct (status response =? 200) eqn:Hstatus.
  - apply Z.eqb_eq in Hstatus.
    destruct (json_body response) as [body | e]; cbn;
      [| eexists _, _; reflexivity].
    destruct body as [| | | | | | probe_info];
      try (cbn; eexists _, _; reflexivity).
    exfalso. exact (Hprobe probe_info eq_refl Hstatus eq_refl).
  - destruct (text_body response) as [message | e]; cbn;
      eexists _, _; reflexivity.
Qed.

Lemma connectivity_failure_short_circuits_witness :
  exists reason suggestion,
    health_check starting_up
    = (Ok (health_dict
             (MkHealth "unhealthy" PyNone PyNone
                [PyStr ("Connectivity issue: " ++ reason)]
                [PyStr suggestion])),
       [HttpGet "http://localhost:9600/_node"]).
Proof.
  apply (connectivity_failure_short_circuits starting_up).
  intros response probe_info Hresponse Hstatus _.
  injection Hresponse as <-. simpl in Hstatus. lia.
Defined.

Lemma check_pipeline_verdict pipeline_id stats h :
  check_pipeline pipeline_id stats h
  = res_bind (pipeline_verdict stats) (fun starved =>
      Ok (if starved
          then report h (pipeline_issue pipeline_id)
                 (pipeline_advice pipeline_id) "warning"
          else h)).
Proof.
  unfold check_pipeline, pipeline_verdict.
  destruct stats as [| | | | | | st]; try reflexivity.
  destruct (dict_get st "events") as [events |]; [| reflexivity].
  destruct (py_get events "filtered" (PyInt 0)) as [filtered | e];
    [| reflexivity].
  cbn [res_bind].
  destruct (py_get events "out" (PyInt 0)) as [out | e]; [| reflexivity].
  cbn [res_bind].
  destruct (py_gt filtered (NInt 0)) as [positive | e]; [| reflexivity].
  cbn [res_bind].
  destruct (positive && py_eq out (NInt 0)); reflexivity.
Qed.

Lemma check_pipelines_flagged items : forall h,
  check_pipelines items h
  = MkHealth
      (match flagged items with
       | [] => overall_status h
       | _ :: _ => "warning"
       end)
      (timestamp h) (logstash_version h)
      (issues h ++ issues_of (flagged items))
      (recommendations h ++ advice_of (flagged items)).
Proof.
  induction items as [| [pipeline_id stats] rest IH]; intros h.
  - destruct h. simpl. rewrite !app_nil_r. reflexivity.
  - cbn [check_pipelines flagged]. rewrite check_pipeline_verdict.
    destruct (pipeline_verdict stats) as [[|] | e]; cbn [res_bind].
    + rewrite IH. unfold report, issues_of, advice_of. simpl.
      rewrite <- !app_assoc. simpl.
      destruct (flagged rest); reflexivity.
    + apply IH.
    + destruct h. simpl. rewrite !app_nil_r. reflexivity.
Qed.

(** The pipeline block never raises: it ends with the assessment after the
    loop over some items, which are the pipelines when they were fetched. *)
Lemma pipeline_stage env h :
  exists items,
    fst (check_pipeline_performance env h) = Ok (check_pipelines items h)
    /\ forall pipeline_stats pipelines,
         fst (make_request env "/_node/stats/pipelines?human=true")
         = Ok (PyDict pipeline_stats) ->
         dict_get pipeline_stats "pipelines" = Some (PyDict pipelines) ->
         items = pipelines.
Proof.
  unfold check_pipeline_performance, try_except, bind, lift, ret, raise.
  destruct (make_request env "/_node/stats/pipelines?human=true")
    as [[fetched | e] calls]; cbn [fst].
  - destruct (py_get fetched "pipelines" (PyDict [])) as [pipelines | e]
      eqn:Hget; cbn.
    + destruct pipelines as [| | | | | | items];
        try (exists []; split; [reflexivity |];
             intros ps p Hps Hp; injection Hps as ->;
             simpl in Hget; rewrite (dict_get_or_some _ _ _ _ Hp) in Hget;
             discriminate).
      exists items. split; [reflexivity |].
      intros ps p Hps Hp. injection Hps as ->.
      simpl in Hget. rewrite (dict_get_or_some _ _ _ _ Hp) in Hget.
      injection Hget as ->. reflexivity.
    + exists []. split; [reflexivity |].
      intros ps p Hps Hp. injection Hps as ->. discriminate.
  - exists []. split; [reflexivity | discriminate].
Qed.

Lemma probe_connected env response probe_info :
  http env (HttpGet (probe_url env)) = Ok response ->
  status response = 200 ->
  json_body response = Ok (PyDict probe_info) ->
  exists connectivity,
    check_connectivity env = (Ok connectivity, [HttpGet (probe_url env)])
    /\ dict_getitem connectivity "status" = Ok (PyStr "connected").
Proof.
  intros Hhttp Hstatus Hbody.
  unfold check_connectivity, perform. fold (probe_url env).
  rewrite Hhttp. cbn. rewrite Hstatus, Hbody. cbn.
  eexists. split; reflexivity.
Qed.

Lemma health_check_run env node_stats :
  reaches_checks env node_stats ->
  exists stamp version,
    fst (health_check env)
    = match check_heap (PyDict node_stats)
              (set_node_info initial_health version stamp) with
      | Ok h =>
          match fst (check_pipeline_performance env h) with
          | Ok h' => Ok (health_dict h')
          | Raise e => Ok (health_error e)
          end
      | Raise e => Ok (health_error e)
      end.
Proof.
  intros [(response & probe_info & Hhttp & Hstatus & Hbody)
          [(node_info & Hinfo) Hstats]].
  destruct (probe_connected env response probe_info Hhttp Hstatus Hbody)
    as (connectivity & Hprobe & Hconnected).
  exists (dict_get_or node_info "timestamp" PyNone),
         (dict_get_or node_info "version" (PyStr "unknown")).
  unfold health_check. rewrite Hprobe.
  unfold try_except, bind, lift, ret. rewrite Hconnected. cbn [str_is String.eqb Ascii.eqb Bool.eqb negb].
  destruct (make_request env "/_node") as [fetched_info calls_info].
  cbn [fst] in Hinfo. subst fetched_info. cbn [py_get].
  destruct (make_request env "/_node/stats?human=true")
    as [fetched_stats calls_stats].
  cbn [fst] in Hstats. subst fetched_stats.
  destruct (check_heap _ _) as [h | e]; [| reflexivity].
  destruct (check_pipeline_performance env h) as [[h' | e] calls];
    reflexivity.
Qed.

Lemma check_heap_cases node_stats :
  (forall h, check_heap node_stats h = Ok h)
  \/ (exists percent,
         forall h,
           check_heap node_stats h
           = Ok (report h (heap_issue percent)
                   heap_advice
                   "warning"))
  \/ (exists e, forall h, check_heap node_stats h = Raise e).
Proof.
  unfold check_heap.
  destruct (py_get node_stats "jvm" (PyDict [])) as [jvm_stats | e];
    cbn [res_bind]; [| right; right; eexists; reflexivity].
  destruct jvm_stats as [| | | | | | jvm]; try (left; reflexivity).
  destruct (dict_get jvm "mem") as [mem |]; [| left; reflexivity].
  destruct (py_get mem "heap_used_percent" (PyInt 0)) as [percent | e];
    cbn [res_bind]; [| right; right; eexists; reflexivity].
  destruct (py_gt percent (NInt 80)) as [[|] | e]; cbn [res_bind].
  - right; left. eexists. reflexivity.
  - left. reflexivity.
  - right; right. eexists. reflexivity.
Qed.

Lemma check_heap_reading node_stats jvm mem high h :
  dict_get node_stats "jvm" = Some (PyDict jvm) ->
  dict_get jvm "mem" = Some (PyDict mem) ->
  py_gt (dict_get_or mem "heap_used_percent" (PyInt 0)) (NInt 80) = Ok high ->
  check_heap (PyDict node_stats) h
  = Ok (if high
        then report h
               (heap_issue (dict_get_or mem "heap_used_percent" (PyInt 0)))
               heap_advice
               "warning"
        else h).
Proof.
  intros Hjvm Hmem Hhigh. unfold check_heap. cbn [py_get res_bind].
  rewrite (dict_get_or_some _ _ _ _ Hjvm), Hmem. cbn [py_get res_bind].
  rewrite Hhigh. cbn [res_bind]. destruct high; reflexivity.
Qed.

Lemma at_least_warning : at_least Warning "warning".
Proof. exists Warning. split; [reflexivity | apply le_n]. Qed.

Lemma pipeline_issue_not_heap pipeline_id :
  mentions_heap (PyStr (pipeline_issue pipeline_id)) = false.
Proof. reflexivity. Qed.

Lemma heap_issue_mentions_heap percent :
  mentions_heap (PyStr (heap_issue percent)) = true.
Proof. reflexivity. Qed.

Lemma issues_of_not_heap ids issue :
  In issue (issues_of ids) -> mentions_heap issue = false.
Proof.
  unfold issues_of. rewrite in_map_iff. intros (pipeline_id & <- & _).
  apply pipeline_issue_not_heap.
Qed.

(** A run on the sample upstream: both checks report. *)
Example health_check_monitored :
  health_check monitored
  = (Ok (health_dict
           (MkHealth "warning" PyNone (PyStr "8.8.0")
              [PyStr "High JVM heap usage: 85%";
               PyStr "Pipeline main has filtered events but no output"]
              [PyStr heap_advice;
               PyStr "Check pipeline main configuration for output issues"])),
     [HttpGet node_url; HttpRequest "GET" node_url;
      HttpRequest "GET" stats_url; HttpRequest "GET" pipelines_url]).
Proof. vm_compute. reflexivity. Qed.

(** Claim C2.  When the run gets to the heap check and reads the number
    [h] as [heap_used_percent]: if [h > 80] the status of the assessment is
    at least "warning" and its issues hold the heap issue of [h]; if not,
    no issue of the assessment is a heap issue. *)
Theorem heap_usage_check env node_stats jvm mem h high :
  reaches_checks env node_stats ->
  dict_get node_stats "jvm" = Some (PyDict jvm) ->
  dict_get jvm "mem" = Some (PyDict mem) ->
  dict_get_or mem "heap_used_percent" (PyInt 0) = h ->
  py_gt h (NInt 80) = Ok high ->
  exists result status issues,
    fst (health_check env) = Ok (PyDict result)
    /\ dict_get result "overall_status" = Some (PyStr status)
    /\ dict_get result "issues" = Some (PyList issues)
    /\ (high = true ->
        at_least Warning status
        /\ In (PyStr (heap_issue h)) issues
        /\ mentions_heap (PyStr (heap_issue h)) = true)
    /\ (high = false ->
        forall issue, In issue issues -> mentions_heap issue = false).
Proof.
  intros Hreach Hjvm Hmem Hh Hhigh. subst h.
  destruct (health_check_run env node_stats Hreach)
    as (stamp & version & ->).
  rewrite (check_heap_reading _ _ _ _ _ Hjvm Hmem Hhigh).
  match goal with
  | |- context [check_pipeline_performance env ?h1] =>
      destruct (pipeline_stage env h1) as (items & -> & _)
  end.
  rewrite check_pipelines_flagged. unfold health_dict.
  cbn [overall_status timestamp logstash_version issues recommendations].
  eexists _, _, _. split; [reflexivity |].
  split; [reflexivity |]. split; [reflexivity |].
  split; intros ->.
  - cbn [overall_status issues report]. split; [| split].
    + destruct (flagged items); apply at_least_warning.
    + apply in_or_app. left. simpl. left. reflexivity.
    + reflexivity.
  - cbn [issues app]. intros issue. apply issues_of_not_heap.
Qed.

Lemma monitored_reaches_checks : reaches_checks monitored sample_node_stats.
Proof.
  split; [| split].
  - eexists _, _. repeat split.
  - eexists. reflexivity.
  - reflexivity.
Defined.

Lemma heap_usage_check_witness :
  exists result status issues,
    fst (health_check monitored) = Ok (PyDict result)
    /\ dict_get result "overall_status" = Some (PyStr status)
    /\ dict_get result "issues" = Some (PyList issues)
    /\ at_least Warning status
    /\ In (PyStr "High JVM heap usage: 85%") issues.
Proof.
  destruct (heap_usage_check monitored sample_node_stats
              [("mem", PyDict [("heap_used_percent", PyInt 85)])]
              [("heap_used_percent", PyInt 85)] (PyInt 85) true
              monitored_reaches_checks eq_refl eq_refl eq_refl eq_refl)
    as (result & status & issues & Hrun & Hstatus & Hissues & Hhigh & _).
  destruct (Hhigh eq_refl) as (Htier & Hin & _).
  exists result, status, issues. repeat split; assumption.
Defined.














(** ** More on the upstream calls *)

(** Property X1.  [make_request] returns a value exactly when the upstream
    answered with status 200 and a body that reads as JSON; the value is that
    body. *)
Theorem make_request_returns_the_200_body env endpoint v :
  fst (make_request env endpoint) = Ok v
  <-> exists response,
        http env (request_to env endpoint) = Ok response
        /\ status response = 200
        /\ json_body response = Ok v.
Proof.
  unfold make_request, try_except, bind, perform, lift, raise, request_to.
  destruct (http env _) as [response | e0]; cbn.
  - destruct (status response =? 200) eqn:Hstatus; cbn.
    + apply Z.eqb_eq in Hstatus.
      destruct (json_body response) as [body | e1] eqn:Hbody; cbn.
      * split.
        -- intros H. injection H as <-. exists response. auto.
        -- intros (r & Hr & _ & Hv). injection Hr as <-. congruence.
      * split.
        -- destruct (is_client_error e1); discriminate.
        -- intros (r & Hr & _ & Hv). injection Hr as <-. congruence.
    + apply Z.eqb_neq in Hstatus. split.
      * destruct (text_body response) as [t | e1]; cbn;
          try destruct (is_client_error e1); discriminate.
      * intros (r & Hr & Hok & _). injection Hr as <-. contradiction.
  - split.
    + destruct (is_client_error e0); discriminate.
    + intros (r & Hr & _). discriminate.
Qed.

(** Property X2.  No [aiohttp.ClientError] leaves [make_request]: whatever
    it raises is of another class.  A client error of the request itself is
    raised again as a plain [Exception] whose message starts with "Failed to
    connect to Logstash at" and names the URL. *)
Theorem make_request_rewraps_client_errors env endpoint e :
  fst (make_request env endpoint) = Raise e ->
  is_client_error e = false
  /\ (forall e0,
         http env (request_to env endpoint) = Raise e0 ->
         is_client_error e0 = true ->
         e = MkExn PlainException
               ("Failed to connect to Logstash at "
                ++ urljoin env (LOGSTASH_BASE_URL env) endpoint ++ ": "
                ++ exn_msg e0)).
Proof.
  unfold make_request, try_except, bind, perform, lift, raise, request_to.
  destruct (http env _) as [response | e0]; cbn.
  - destruct (status response =? 200); cbn.
    + destruct (json_body response) as [body | e1]; cbn; [discriminate |].
      destruct (is_client_error e1) eqn:Hclass; cbn;
        intros H; injection H as <-; (split; [| discriminate]);
        [reflexivity | exact Hclass].
    + destruct (text_body response) as [t | e1]; cbn.
      * intros H. injection H as <-. split; [reflexivity | discriminate].
      * destruct (is_client_error e1) eqn:Hclass; cbn;
          intros H; injection H as <-; (split; [| discriminate]);
          [reflexivity | exact Hclass].
  - destruct (is_client_error e0) eqn:Hclass; cbn; intros H; injection H as <-.
    + split; [reflexivity |]. intros e1 H1 _. injection H1 as <-. reflexivity.
    + split; [exact Hclass |]. intros e1 H1 H2. injection H1 as <-. congruence.
Qed.

Lemma make_request_rewraps_client_errors_witness :
  is_client_error
    (MkExn PlainException
       "Failed to connect to Logstash at http://localhost:9600/_node/plugins: Cannot connect to host localhost:9600")
  = false.
Proof.
  apply (make_request_rewraps_client_errors unplugged "/_node/plugins").
  reflexivity.
Defined.

(** [check_connectivity] never raises: it returns one of three dicts. *)
Lemma check_connectivity_cases env :
  exists connectivity,
    check_connectivity env = (Ok connectivity, [HttpGet (probe_url env)])
    /\ dict_get connectivity "url" = Some (PyStr (LOGSTASH_BASE_URL env))
    /\ ((dict_get connectivity "status" = Some (PyStr "connected")
         /\ exists response probe_info,
              http env (HttpGet (probe_url env)) = Ok response
              /\ status response = 200
              /\ json_body response = Ok (PyDict probe_info)
              /\ dict_get connectivity "timestamp"
                 = Some (or_unknown (dict_get_or probe_info "timestamp" PyNone)))
        \/ (dict_get connectivity "status" = Some (PyStr "error")
            /\ (exists response,
                   http env (HttpGet (probe_url env)) = Ok response
                   /\ status response <> 200
                   /\ dict_get connectivity "error"
                      = Some (PyStr ("HTTP " ++ string_of_Z (status response))))
            /\ dict_get connectivity "suggestion" = None)
        \/ (dict_get connectivity "status" = Some (PyStr "unreachable")
            /\ (exists message,
                   dict_get connectivity "error" = Some (PyStr message))
            /\ dict_get connectivity "suggestion"
               = Some (PyStr "Verify Logstash URL and network connectivity"))).
Proof.
  unfold check_connectivity, perform. fold (probe_url env).
  destruct (http env (HttpGet (probe_url env))) as [response | e];
    [| cbn; eexists; split; [reflexivity |]; split; [reflexivity |];
       right; right; repeat split; eexists; reflexivity].
  cbn. destruct (status response =? 200) eqn:Hstatus.
  - apply Z.eqb_eq in Hstatus.
    destruct (json_body response) as [body | e] eqn:Hbody; cbn;
      [| eexists; split; [reflexivity |]; split; [reflexivity |];
         right; right; repeat split; eexists; reflexivity].
    destruct body as [| | | | | | probe_info];
      try (cbn; eexists; split; [reflexivity |]; split; [reflexivity |];
           right; right; repeat split; eexists; reflexivity).
    cbn. eexists. split; [reflexivity |]. split; [reflexivity |].
    left. split; [reflexivity |]. exists response, probe_info.
    repeat split; assumption.
  - apply Z.eqb_neq in Hstatus.
    destruct (text_body response) as [message | e]; cbn;
      eexists; (split; [reflexivity |]); (split; [reflexivity |]).
    + right; left. split; [reflexivity |]. split; [| reflexivity].
      exists response. repeat split. exact Hstatus.
    + right; right. repeat split. eexists; reflexivity.
Qed.

(** ** More on the composite health check *)

Lemma try_except_pair {A : Type} (m : M A) (f : exn -> A) :
  try_except m any_exception (fun e => ret (f e))
  = (Ok (match fst m with
         | Ok a => a
         | Raise e => f e
         end), snd m).
Proof.
  destruct m as [[a | e] calls]; cbn; [reflexivity |].
  rewrite app_nil_r. reflexivity.
Qed.

Lemma snd_bind {A B : Type} (m : M A) (k : A -> M B) :
  snd (bind m k)
  = match fst m with
    | Ok a => (snd m ++ snd (k a))%list
    | Raise _ => snd m
    end.
Proof.
  destruct m as [[a | e] calls]; cbn; [| reflexivity].
  destruct (k a); reflexivity.
Qed.

Lemma fst_bind {A B : Type} (m : M A) (k : A -> M B) :
  fst (bind m k)
  = match fst m with
    | Ok a => fst (k a)
    | Raise e => Raise e
    end.
Proof.
  destruct m as [[a | e] calls]; cbn; [| reflexivity].
  destruct (k a); reflexivity.
Qed.

Lemma pair_eta {A B : Type} (p : A * B) : p = (fst p, snd p).
Proof. destruct p; reflexivity. Qed.

(** The pipeline block makes its one request and never raises. *)
Lemma pipeline_stage_calls env h :
  snd (check_pipeline_performance env h)
  = [request_to env "/_node/stats/pipelines?human=true"].
Proof.
  unfold check_pipeline_performance, try_except.
  match goal with
  | |- snd (match ?m with _ => _ end) = _ =>
      assert (Hcalls : snd m
                       = [request_to env "/_node/stats/pipelines?human=true"]);
        [| destruct m as [[x | e] calls]; cbn in *;
           [exact Hcalls | subst calls; reflexivity]]
  end.
  rewrite snd_bind, make_request_calls.
  destruct (fst (make_request env _)) as [stats | e]; [| reflexivity].
  rewrite snd_bind. cbn [lift fst snd].
  destruct (py_get stats "pipelines" (PyDict [])) as [pipelines | e];
    [| reflexivity].
  destruct pipelines; reflexivity.
Qed.

(** A run of [health_check] whose probe succeeds, call by call. *)
Lemma health_check_connected env response probe_info :
  http env (HttpGet (probe_url env)) = Ok response ->
  status response = 200 ->
  json_body response = Ok (PyDict probe_info) ->
  health_check env
  = match fst (make_request env "/_node") with
    | Raise e => (Ok (health_error e), firstn 2 (health_calls env))
    | Ok node_info =>
        match py_get node_info "version" (PyStr "unknown"),
              py_get node_info "timestamp" PyNone with
        | Ok version, Ok stamp =>
            match fst (make_request env "/_node/stats?human=true") with
            | Raise e => (Ok (health_error e), firstn 3 (health_calls env))
            | Ok node_stats =>
                match check_heap node_stats
                        (set_node_info initial_health version stamp) with
                | Raise e =>
                    (Ok (health_error e), firstn 3 (health_calls env))
                | Ok h =>
                    match fst (check_pipeline_performance env h) with
                    | Ok h' => (Ok (health_dict h'), health_calls env)
                    | Raise e => (Ok (health_error e), health_calls env)
                    end
                end
            end
        | Raise e, _ | _, Raise e =>
            (Ok (health_error e), firstn 2 (health_calls env))
        end
    end.
Proof.
  intros Hhttp Hstatus Hbody.
  destruct (probe_connected env response probe_info Hhttp Hstatus Hbody)
    as (connectivity & Hprobe & Hconnected).
  unfold health_check. rewrite Hprobe.
  unfold try_except, bind, lift, ret. rewrite Hconnected.
  cbn [str_is String.eqb Ascii.eqb Bool.eqb negb].
  pose proof (make_request_calls env "/_node") as Hc1.
  destruct (make_request env "/_node") as [[node_info | e] calls1];
    cbn [fst snd] in *; subst calls1; [| reflexivity].
  destruct (py_get node_info "version" (PyStr "unknown")) as [version | e];
    [| destruct (py_get node_info "timestamp" PyNone); reflexivity].
  destruct (py_get node_info "timestamp" PyNone) as [stamp | e];
    [| reflexivity].
  pose proof (make_request_calls env "/_node/stats?human=true") as Hc2.
  destruct (make_request env "/_node/stats?human=true")
    as [[node_stats | e] calls2]; cbn [fst snd] in *; subst calls2;
    [| reflexivity].
  destruct (check_heap _ _) as [h | e]; [| reflexivity].
  pose proof (pipeline_stage_calls env h) as Hc3.
  destruct (check_pipeline_performance env h) as [[h' | e] calls3];
    cbn [fst snd] in *; subst calls3; reflexivity.
Qed.

Lemma assessment_after_pipelines h items :
  length (issues h) = length (recommendations h) ->
  (overall_status h = "healthy" /\ issues h = [])
  \/ (overall_status h = "warning"
      /\ exists issue rest, issues h = issue :: rest) ->
  assessment (health_dict (check_pipelines items h)).
Proof.
  intros Hlength Hstatus. right. exists (check_pipelines items h).
  split; [reflexivity |]. rewrite check_pipelines_flagged.
  cbn [overall_status issues recommendations]. split.
  - rewrite !length_app. unfold issues_of, advice_of.
    rewrite !length_map. lia.
  - destruct (flagged items) as [| p ps].
    + cbn. rewrite app_nil_r.
      destruct Hstatus as [H | H]; [left | right; left]; exact H.
    + right; left. split; [reflexivity |].
      destruct (issues h) as [| i rest]; cbn; eexists _, _; reflexivity.
Qed.

Lemma dict_get_getitem d k x :
  dict_get d k = Some x -> dict_getitem d k = Ok x.
Proof. unfold dict_getitem. intros ->. reflexivity. Qed.

(** A run of [health_check] whose probe fails. *)
Lemma health_check_disconnected env connectivity state message :
  check_connectivity env = (Ok connectivity, [HttpGet (probe_url env)]) ->
  dict_get connectivity "status" = Some (PyStr state) ->
  String.eqb state "connected" = false ->
  dict_get connectivity "error" = Some (PyStr message) ->
  health_check env
  = (Ok (health_dict
           (MkHealth "unhealthy" PyNone PyNone
              [PyStr ("Connectivity issue: " ++ message)]
              [dict_get_or connectivity "suggestion"
                 (PyStr "Check Logstash connectivity")])),
     [HttpGet (probe_url env)]).
Proof.
  intros Hprobe Hstate Hother Herror.
  unfold health_check. rewrite Hprobe.
  unfold try_except, bind, lift, ret.
  rewrite (dict_get_getitem _ _ _ Hstate). cbn [str_is]. rewrite Hother.
  cbn [negb]. rewrite (dict_get_getitem _ _ _ Herror). reflexivity.
Qed.

Lemma health_check_shape env :
  exists result n,
    health_check env = (Ok result, firstn n (health_calls env))
    /\ (1 <= n <= 4)%nat
    /\ assessment result.
Proof.
  assert (Hfailed : forall connectivity state message,
             check_connectivity env
             = (Ok connectivity, [HttpGet (probe_url env)]) ->
             dict_get connectivity "status" = Some (PyStr state) ->
             String.eqb state "connected" = false ->
             dict_get connectivity "error" = Some (PyStr message) ->
             exists result n,
               health_check env = (Ok result, firstn n (health_calls env))
               /\ (1 <= n <= 4)%nat
               /\ assessment result).
  { intros connectivity state message Hprobe Hstate Hother Herror.
    eexists _, 1%nat. split;
      [exact (health_check_disconnected _ _ _ _ Hprobe Hstate Hother Herror) |].
    split; [lia |]. right. eexists. split; [reflexivity |].
    split; [reflexivity |]. right; right. split; [reflexivity |].
    eexists. reflexivity. }
  destruct (check_connectivity_cases env)
    as (connectivity & Hprobe & _
        & [(_ & response & probe_info & Hhttp & Hstatus & Hbody & _)
          | [(Hstate & (response & _ & _ & Herror) & _)
            | (Hstate & (message & Herror) & _)]]);
    [| exact (Hfailed _ _ _ Hprobe Hstate eq_refl Herror)
     | exact (Hfailed _ _ _ Hprobe Hstate eq_refl Herror)].
  clear Hfailed.
  rewrite (health_check_connected env response probe_info Hhttp Hstatus Hbody).
  destruct (fst (make_request env "/_node")) as [node_info | e];
    [| eexists _, 2%nat; split; [reflexivity |]; split; [lia |];
       left; eexists; reflexivity].
  destruct (py_get node_info "version" (PyStr "unknown")) as [version | e];
    [| destruct (py_get node_info "timestamp" PyNone);
       eexists _, 2%nat; (split; [reflexivity |]); (split; [lia |]);
       left; eexists; reflexivity].
  destruct (py_get node_info "timestamp" PyNone) as [stamp | e];
    [| eexists _, 2%nat; split; [reflexivity |]; split; [lia |];
       left; eexists; reflexivity].
  destruct (fst (make_request env "/_node/stats?human=true"))
    as [node_stats | e];
    [| eexists _, 3%nat; split; [reflexivity |]; split; [lia |];
       left; eexists; reflexivity].
  destruct (check_heap_cases node_stats)
    as [Hsame | [(percent & Hreport) | (e & Hraise)]].
  - rewrite Hsame.
    destruct (pipeline_stage env (set_node_info initial_health version stamp))
      as (items & -> & _).
    eexists _, 4%nat. split; [reflexivity |]. split; [lia |].
    apply assessment_after_pipelines; [reflexivity |].
    left. split; reflexivity.
  - rewrite Hreport.
    match goal with
    | |- context [check_pipeline_performance env ?h1] =>
        destruct (pipeline_stage env h1) as (items & -> & _)
    end.
    eexists _, 4%nat. split; [reflexivity |]. split; [lia |].
    apply assessment_after_pipelines; [reflexivity |].
    right. split; [reflexivity |]. eexists _, _. reflexivity.
  - rewrite Hraise. eexists _, 3%nat. split; [reflexivity |].
    split; [lia |]. left. eexists. reflexivity.
Qed.

(** Property X3.  [check_connectivity] never raises and makes exactly one
    call, the probe.  The dict it returns echoes the base URL and has the
    status "connected", "error" or "unreachable". *)
Theorem check_connectivity_always_answers env :
  exists connectivity,
    check_connectivity env = (Ok connectivity, [HttpGet (probe_url env)])
    /\ dict_get connectivity "url" = Some (PyStr (LOGSTASH_BASE_URL env))
    /\ (dict_get connectivity "status" = Some (PyStr "connected")
        \/ dict_get connectivity "status" = Some (PyStr "error")
        \/ dict_get connectivity "status" = Some (PyStr "unreachable")).
Proof.
  destruct (check_connectivity_cases env)
    as (connectivity & Hrun & Hurl & [(H & _) | [(H & _) | (H & _)]]);
    exists connectivity; repeat split; auto.
Qed.

(** Property X4.  The status is "connected" exactly when the probe came
    back with status 200 and a JSON object; the timestamp reported then is
    never falsy, "unknown" standing in for a missing or empty one. *)
Theorem connected_means_200_with_object env connectivity :
  fst (check_connectivity env) = Ok connectivity ->
  (dict_get connectivity "status" = Some (PyStr "connected")
   <-> probe_succeeds env)
  /\ (dict_get connectivity "status" = Some (PyStr "connected") ->
      exists stamp,
        dict_get connectivity "timestamp" = Some stamp
        /\ truthy stamp = true).
Proof.
  intros Hrun.
  destruct (check_connectivity_cases env)
    as (connectivity' & Hrun' & _ & Hcases).
  rewrite Hrun' in Hrun. cbn in Hrun. injection Hrun as ->.
  assert (Htruthy : forall x, truthy (or_unknown x) = true).
  { intros x. unfold or_unknown. destruct (truthy x) eqn:Hx;
      [exact Hx | reflexivity]. }
  destruct Hcases
    as [(Hstate & response & probe_info & Hhttp & Hstatus & Hbody & Hstamp)
       | [(Hstate & (response & Hhttp & Hstatus & _) & _)
         | (Hstate & _ & Hsuggestion)]].
  - split.
    + split; [| intros _; exact Hstate].
      intros _. exists response, probe_info. auto.
    + intros _. eexists. split; [exact Hstamp | apply Htruthy].
  - split; [split |]; try (rewrite Hstate; discriminate).
    intros (r & info & Hr & Hs & _). rewrite Hhttp in Hr.
    injection Hr as <-. contradiction.
  - split; [split |]; try (rewrite Hstate; discriminate).
    intros (r & info & Hr & Hs & Hb). exfalso.
    revert Hrun' Hsuggestion. unfold check_connectivity, perform.
    fold (probe_url env). rewrite Hr. cbn. rewrite Hs, Hb. cbn.
    intros H. injection H as <-. discriminate.
Qed.

Lemma connected_means_200_with_object_witness :
  (dict_get
     [("status", PyStr "connected"); ("url", PyStr "http://localhost:9600");
      ("version", PyStr "8.8.0"); ("host", PyStr "logstash-1");
      ("response_time_ms", PyStr "unknown"); ("timestamp", PyStr "unknown")]
     "status" = Some (PyStr "connected")
   <-> probe_succeeds monitored)
  /\ (dict_get
        [("status", PyStr "connected"); ("url", PyStr "http://localhost:9600");
         ("version", PyStr "8.8.0"); ("host", PyStr "logstash-1");
         ("response_time_ms", PyStr "unknown");
         ("timestamp", PyStr "unknown")]
        "status" = Some (PyStr "connected") ->
      exists stamp,
        dict_get
          [("status", PyStr "connected");
           ("url", PyStr "http://localhost:9600");
           ("version", PyStr "8.8.0"); ("host", PyStr "logstash-1");
           ("response_time_ms", PyStr "unknown");
           ("timestamp", PyStr "unknown")]
          "timestamp" = Some stamp
        /\ truthy stamp = true).
Proof.
  apply (connected_means_200_with_object monitored). reflexivity.
Defined.

(** Property X5.  [health_check] never raises.  It returns the error dict,
    or an assessment with one recommendation per issue whose status is
    "healthy" with no issue, "warning" with at least one issue, or
    "unhealthy" with exactly one issue. *)
Theorem health_check_always_assesses env :
  exists result,
    fst (health_check env) = Ok result /\ assessment result.
Proof.
  destruct (health_check_shape env) as (result & n & Hrun & _ & Hshape).
  exists result. rewrite Hrun. split; [reflexivity | exact Hshape].
Qed.

(** Property X6.  The upstream calls of [health_check] are a prefix, with
    one to four calls, of: the probe, the node information, the node
    statistics, the pipeline statistics.  So the probe always comes first
    and no later request is made once an earlier one has failed. *)
Theorem health_check_call_order env :
  exists n,
    snd (health_check env) = firstn n (health_calls env)
    /\ (1 <= n <= 4)%nat.
Proof.
  destruct (health_check_shape env) as (result & n & Hrun & Hn & _).
  exists n. rewrite Hrun. split; [reflexivity | exact Hn].
Qed.

(** Property X7.  The recommendation depends on how the probe failed.  A
    probe answered with a status other than 200 whose body text can be read
    gives the issue "Connectivity issue: HTTP <status>" and, its dict having
    no suggestion, the recommendation "Check Logstash connectivity".  Every
    other failure is an exception caught in [check_connectivity]: the
    request raises, the body text of an answer other than 200 cannot be
    read, the body of a 200 answer does not read as JSON, or it reads as
    JSON that is not an object.  Each gives the issue "Connectivity issue:"
    followed by the exception's message and the recommendation "Verify
    Logstash URL and network connectivity". *)
Theorem probe_failure_assessment env :
  (forall response message,
      http env (HttpGet (probe_url env)) = Ok response ->
      status response <> 200 ->
      text_body response = Ok message ->
      health_check env
      = (Ok (health_dict
               (MkHealth "unhealthy" PyNone PyNone
                  [PyStr ("Connectivity issue: HTTP "
                          ++ string_of_Z (status response))]
                  [PyStr "Check Logstash connectivity"])),
         [HttpGet (probe_url env)]))
  /\ (forall e,
         http env (HttpGet (probe_url env)) = Raise e
         \/ (exists response,
                http env (HttpGet (probe_url env)) = Ok response
                /\ ((status response <> 200 /\ text_body response = Raise e)
                    \/ (status response = 200
                        /\ json_body response = Raise e)
                    \/ (status response = 200
                        /\ exists body,
                             json_body response = Ok body
                             /\ type_name body <> "dict"
                             /\ e = MkExn AttributeError
                                      ("'" ++ type_name body
                                       ++ "' object has no attribute 'get'")))) ->
         health_check env
         = (Ok (health_dict
                  (MkHealth "unhealthy" PyNone PyNone
                     [PyStr ("Connectivity issue: " ++ exn_msg e)]
                     [PyStr "Verify Logstash URL and network connectivity"])),
            [HttpGet (probe_url env)])).
Proof.
  split.
  - intros response message Hhttp Hstatus Htext.
    apply Z.eqb_neq in Hstatus.
    unfold health_check, check_connectivity, perform. fold (probe_url env).
    rewrite Hhttp. cbn. rewrite Hstatus, Htext. reflexivity.
  - intros e [Hhttp | (response & Hhttp & Hcase)];
      unfold health_check, check_connectivity, perform;
      fold (probe_url env); rewrite Hhttp; [reflexivity |].
    destruct Hcase
      as [(Hstatus & Htext)
         | [(Hstatus & Hjson) | (Hstatus & body & Hjson & Htype & ->)]].
    + apply Z.eqb_neq in Hstatus. cbn. rewrite Hstatus, Htext. reflexivity.
    + apply Z.eqb_eq in Hstatus. cbn. rewrite Hstatus, Hjson. reflexivity.
    + apply Z.eqb_eq in Hstatus. cbn. rewrite Hstatus, Hjson.
      destruct body; try reflexivity. cbn in Htype. contradiction.
Qed.

Lemma probe_failure_assessment_witness :
  health_check starting_up
  = (Ok (health_dict
           (MkHealth "unhealthy" PyNone PyNone
              [PyStr "Connectivity issue: HTTP 503"]
              [PyStr "Check Logstash connectivity"])),
     [HttpGet node_url])
  /\ health_check unplugged
     = (Ok (health_dict
              (MkHealth "unhealthy" PyNone PyNone
                 [PyStr "Connectivity issue: Cannot connect to host localhost:9600"]
                 [PyStr "Verify Logstash URL and network connectivity"])),
        [HttpGet node_url])
  /\ health_check broken_body
     = (Ok (health_dict
              (MkHealth "unhealthy" PyNone PyNone
                 [PyStr "Connectivity issue: Response payload is not completed"]
                 [PyStr "Verify Logstash URL and network connectivity"])),
        [HttpGet node_url]).
Proof.
  destruct (probe_failure_assessment starting_up) as [Hstatus _].
  destruct (probe_failure_assessment unplugged) as [_ Hraise].
  destruct (probe_failure_assessment broken_body) as [_ Hbody].
  split; [| split].
  - apply (Hstatus
             (MkResponse 503 None
                (Raise (MkExn ClientError "Service Unavailable"))
                (Ok "Service Unavailable")) "Service Unavailable").
    + reflexivity.
    + simpl. lia.
    + reflexivity.
  - apply (Hraise (MkExn ClientError "Cannot connect to host localhost:9600")).
    left. reflexivity.
  - apply (Hbody (MkExn ClientError "Response payload is not completed")).
    right. eexists. split; [reflexivity |].
    left. split; [simpl; lia | reflexivity].
Defined.



(** Property X9.  A [heap_used_percent] that is not a number (a string,
    null, a list or a dict) fails the whole check: the comparison with 80
    raises [TypeError], [health_check] returns the error dict with that
    message, and the pipeline statistics are not requested. *)
Theorem unreadable_heap_fails_the_check
  env node_info node_stats jvm mem percent :
  probe_succeeds env ->
  fst (make_request env "/_node") = Ok (PyDict node_info) ->
  fst (make_request env "/_node/stats?human=true") = Ok (PyDict node_stats) ->
  dict_get node_stats "jvm" = Some (PyDict jvm) ->
  dict_get jvm "mem" = Some (PyDict mem) ->
  dict_get mem "heap_used_percent" = Some percent ->
  as_number percent = None ->
  health_check env
  = (Ok (health_error
           (MkExn TypeError
              ("'>' not supported between instances of '"
               ++ type_name percent ++ "' and 'int'"))),
     firstn 3 (health_calls env)).
Proof.
  intros (response & probe_info & Hhttp & Hstatus & Hbody)
    Hinfo Hstats Hjvm Hmem Hpercent Hnumber.
  rewrite (health_check_connected env response probe_info Hhttp Hstatus Hbody).
  rewrite Hinfo, Hstats. cbn [py_get].
  unfold check_heap. cbn [py_get res_bind].
  rewrite (dict_get_or_some _ _ _ _ Hjvm), Hmem. cbn [py_get res_bind].
  rewrite (dict_get_or_some _ _ _ _ Hpercent).
  unfold py_gt. rewrite Hnumber. reflexivity.
Qed.

Lemma unreadable_heap_fails_the_check_witness :
  health_check heap_as_text
  = (Ok (health_error
           (MkExn TypeError
              "'>' not supported between instances of 'str' and 'int'")),
     [HttpGet node_url; HttpRequest "GET" node_url;
      HttpRequest "GET" stats_url]).
Proof.
  apply (unreadable_heap_fails_the_check heap_as_text sample_node_info
           [("jvm", PyDict [("mem", PyDict [("heap_used_percent",
                                              PyStr "85%")])])]
           [("mem", PyDict [("heap_used_percent", PyStr "85%")])]
           [("heap_used_percent", PyStr "85%")] (PyStr "85%"));
    try reflexivity.
  eexists _, _. repeat split.
Defined.

(** Property X10.  When the pipeline statistics cannot be had as an object
    of pipelines (the request fails, the document has no dict under
    "pipelines", or that dict is empty), the check is skipped silently:
    [health_check] returns the assessment as it stood after the heap check,
    with the version and the timestamp of the node information, after all
    four upstream calls. *)
Theorem missing_pipelines_are_skipped env node_info node_stats after_heap :
  probe_succeeds env ->
  fst (make_request env "/_node") = Ok (PyDict node_info) ->
  fst (make_request env "/_node/stats?human=true") = Ok (PyDict node_stats) ->
  check_heap (PyDict node_stats)
    (set_node_info initial_health
       (dict_get_or node_info "version" (PyStr "unknown"))
       (dict_get_or node_info "timestamp" PyNone))
  = Ok after_heap ->
  (forall pipeline_stats pipelines,
      fst (make_request env "/_node/stats/pipelines?human=true")
      = Ok (PyDict pipeline_stats) ->
      dict_get pipeline_stats "pipelines" = Some (PyDict pipelines) ->
      pipelines = []) ->
  health_check env = (Ok (health_dict after_heap), health_calls env).
Proof.
  intros (response & probe_info & Hhttp & Hstatus & Hbody)
    Hinfo Hstats Hheap Hmissing.
  rewrite (health_check_connected env response probe_info Hhttp Hstatus Hbody).
  rewrite Hinfo, Hstats. cbn [py_get]. rewrite Hheap.
  assert (Hstage : fst (check_pipeline_performance env after_heap)
                   = Ok after_heap).
  { unfold check_pipeline_performance, try_except.
    rewrite (pair_eta (bind _ _)), fst_bind.
    destruct (fst (make_request env "/_node/stats/pipelines?human=true"))
      as [fetched | e] eqn:Hfetch; [| reflexivity].
    rewrite fst_bind. cbn [lift fst].
    destruct fetched as [| | | | | | pipeline_stats]; try reflexivity.
    cbn [py_get]. unfold dict_get_or.
    destruct (dict_get pipeline_stats "pipelines") as [pipelines |] eqn:Hget;
      [| reflexivity].
    destruct pipelines as [| | | | | | items]; try reflexivity.
    rewrite (Hmissing pipeline_stats items eq_refl Hget). reflexivity. }
  rewrite Hstage. reflexivity.
Qed.

Lemma missing_pipelines_are_skipped_witness :
  health_check without_pipelines
  = (Ok (health_dict
           (MkHealth "warning" PyNone (PyStr "8.8.0")
              [PyStr "High JVM heap usage: 85%"] [PyStr heap_advice])),
     health_calls without_pipelines).
Proof.
  apply (missing_pipelines_are_skipped without_pipelines sample_node_info
           sample_node_stats);
    try reflexivity.
  - eexists _, _. repeat split.
  - intros pipeline_stats pipelines Hfetch. discriminate Hfetch.
Defined.

(** Property X11.  With all four documents fetched, the assessment lists
    the heap issue first, if there is one, and then the issue of every
    reported pipeline in the order of the pipelines dict, with the
    recommendations in the same order; the status is "warning" as soon as a
    pipeline is reported. *)
Theorem issues_in_order
  env node_info node_stats after_heap pipeline_stats pipelines :
  probe_succeeds env ->
  fst (make_request env "/_node") = Ok (PyDict node_info) ->
  fst (make_request env "/_node/stats?human=true") = Ok (PyDict node_stats) ->
  check_heap (PyDict node_stats)
    (set_node_info initial_health
       (dict_get_or node_info "version" (PyStr "unknown"))
       (dict_get_or node_info "timestamp" PyNone))
  = Ok after_heap ->
  fst (make_request env "/_node/stats/pipelines?human=true")
  = Ok (PyDict pipeline_stats) ->
  dict_get pipeline_stats "pipelines" = Some (PyDict pipelines) ->
  fst (health_check env)
  = Ok (health_dict
          (MkHealth
             (match flagged pipelines with
              | [] => overall_status after_heap
              | _ :: _ => "warning"
              end)
             (dict_get_or node_info "timestamp" PyNone)
             (dict_get_or node_info "version" (PyStr "unknown"))
             (issues after_heap ++ issues_of (flagged pipelines))
             (recommendations after_heap ++ advice_of (flagged pipelines)))).
Proof.
  intros (response & probe_info & Hhttp & Hstatus & Hbody)
    Hinfo Hstats Hheap Hfetch Hpipelines.
  rewrite (health_check_connected env response probe_info Hhttp Hstatus Hbody).
  rewrite Hinfo, Hstats. cbn [py_get]. rewrite Hheap.
  destruct (pipeline_stage env after_heap) as (items & -> & Hitems).
  rewrite (Hitems _ _ Hfetch Hpipelines), check_pipelines_flagged.
  cbn [fst]. do 3 f_equal.
  - destruct (check_heap_cases (PyDict node_stats))
      as [Hsame | [(percent & Hreport) | (e & Hraise)]].
    + rewrite Hsame in Hheap. injection Hheap as <-. reflexivity.
    + rewrite Hreport in Hheap. injection Hheap as <-. reflexivity.
    + rewrite Hraise in Hheap. discriminate.
  - destruct (check_heap_cases (PyDict node_stats))
      as [Hsame | [(percent & Hreport) | (e & Hraise)]].
    + rewrite Hsame in Hheap. injection Hheap as <-. reflexivity.
    + rewrite Hreport in Hheap. injection Hheap as <-. reflexivity.
    + rewrite Hraise in Hheap. discriminate.
Qed.

Lemma issues_in_order_witness :
  fst (health_check monitored)
  = Ok (health_dict
          (MkHealth "warning" PyNone (PyStr "8.8.0")
             [PyStr "High JVM heap usage: 85%";
              PyStr "Pipeline main has filtered events but no output"]
             [PyStr heap_advice;
              PyStr "Check pipeline main configuration for output issues"])).
Proof.
  apply (issues_in_order monitored sample_node_info sample_node_stats
           (report (set_node_info initial_health (PyStr "8.8.0") PyNone)
              (heap_issue (PyInt 85)) heap_advice "warning")
           [("pipelines", PyDict sample_pipelines)] sample_pipelines);
    try reflexivity.
  eexists _, _. repeat split.
Defined.

(** Property X12.  The loop over the pipelines ends at the first pipeline
    whose counts cannot be read: that pipeline and all that follow it in the
    dict are left out, and what was recorded before stays. *)
Theorem loop_ends_at_unreadable_pipeline before pipeline_id stats after h :
  pipeline_readable stats = false ->
  check_pipelines (before ++ (pipeline_id, stats) :: after) h
  = check_pipelines before h.
Proof.
  intros Hunreadable. revert h.
  induction before as [| [p s] rest IH]; intros h.
  - cbn [app check_pipelines]. rewrite check_pipeline_verdict.
    unfold pipeline_readable in Hunreadable.
    destruct (pipeline_verdict stats); [discriminate | reflexivity].
  - cbn [app check_pipelines].
    destruct (check_pipeline p s h); [apply IH | reflexivity].
Qed.

Lemma loop_ends_at_unreadable_pipeline_witness :
  check_pipelines
    ([("audit", PyDict [("events", PyDict [("filtered", PyInt 10);
                                            ("out", PyInt 10)])])]
     ++ ("broken", PyDict [("events", PyStr "n/a")])
     :: [("main", PyDict [("events", PyDict [("filtered", PyInt 1000);
                                              ("out", PyInt 0)])])])
    initial_health
  = check_pipelines
      [("audit", PyDict [("events", PyDict [("filtered", PyInt 10);
                                             ("out", PyInt 10)])])]
      initial_health.
Proof.
  apply (loop_ends_at_unreadable_pipeline
           [("audit", PyDict [("events", PyDict [("filtered", PyInt 10);
                                                  ("out", PyInt 10)])])]
           "broken" (PyDict [("events", PyStr "n/a")])).
  reflexivity.
Defined.

(** ** More on the tool calls *)

Lemma snd_try_ret {A : Type} (m : M A) handles (f : exn -> A) :
  snd (try_except m handles (fun e => ret (f e))) = snd m.
Proof.
  destruct m as [[a | e] calls]; cbn; [reflexivity |].
  destruct (handles e); cbn; [apply app_nil_r | reflexivity].
Qed.

Lemma snd_bind_lift {A B : Type} (r : res A) (k : A -> M B) :
  snd (bind (lift r) k)
  = match r with
    | Ok a => snd (k a)
    | Raise _ => []
    end.
Proof. destruct r as [a | e]; cbn; [destruct (k a) |]; reflexivity. Qed.

Lemma snd_bind_pure {A B : Type} (m : M A) (f : A -> res B) :
  snd (bind m (fun a => lift (f a))) = snd m.
Proof.
  destruct m as [[a | e] calls]; cbn; [apply app_nil_r | reflexivity].
Qed.

Lemma snd_bind_ret {A B : Type} (m : M A) (f : A -> B) :
  snd (bind m (fun a => ret (f a))) = snd m.
Proof.
  destruct m as [[a | e] calls]; cbn; [apply app_nil_r | reflexivity].
Qed.

Lemma check_connectivity_calls env :
  snd (check_connectivity env) = [HttpGet (probe_url env)].
Proof.
  destruct (check_connectivity_cases env) as (c & -> & _). reflexivity.
Qed.

(** The calls of [handle_tool_call]: none, one request, the probe, or those
    of the health check. *)
Lemma handle_tool_call_calls env name arguments :
  snd (handle_tool_call env name arguments) = []
  \/ (exists endpoint,
         snd (handle_tool_call env name arguments)
         = [request_to env endpoint])
  \/ snd (handle_tool_call env name arguments) = [HttpGet (probe_url env)]
  \/ (str_is name "logstash_health_check" = true
      /\ snd (handle_tool_call env name arguments)
         = snd (health_check env)).
Proof.
  assert (Hrequest : forall (r : res string),
             snd (bind (lift r) (fun endpoint => make_request env endpoint))
             = []
             \/ exists endpoint,
                 snd (bind (lift r)
                        (fun endpoint => make_request env endpoint))
                 = [request_to env endpoint]).
  { intros [endpoint | e]; rewrite snd_bind_lift; [right | left; reflexivity].
    exists endpoint. apply make_request_calls. }
  assert (Hreport : forall (r : res string) (f : value -> res value),
             snd (bind (lift r)
                    (fun endpoint =>
                       bind (make_request env endpoint)
                         (fun doc => lift (f doc))))
             = []
             \/ exists endpoint,
                 snd (bind (lift r)
                        (fun endpoint =>
                           bind (make_request env endpoint)
                             (fun doc => lift (f doc))))
                 = [request_to env endpoint]).
  { intros [endpoint | e] f; rewrite snd_bind_lift;
      [right | left; reflexivity].
    exists endpoint. rewrite snd_bind_pure. apply make_request_calls. }
  unfold handle_tool_call. rewrite snd_try_ret.
  destruct (str_is name "logstash_check_connectivity").
  { right; right; left. rewrite snd_bind_ret. apply check_connectivity_calls. }
  destruct (str_is name "logstash_node_info").
  { right; left. eexists. apply make_request_calls. }
  destruct (str_is name "logstash_node_stats").
  { destruct (Hrequest (with_human arguments "/_node/stats" "?human=true"));
      auto. }
  destruct (str_is name "logstash_pipelines_stats").
  { destruct (Hrequest (with_human arguments "/_node/stats/pipelines"
                          "?human=true")); auto. }
  destruct (str_is name "logstash_pipeline_stats").
  { rewrite snd_bind_lift.
    destruct (py_get arguments "id" PyNone) as [pipeline_id | e]; auto.
    destruct (negb (truthy pipeline_id)); auto.
    destruct (Hrequest (with_human arguments
                          ("/_node/stats/pipelines/" ++ py_str pipeline_id)
                          "?human=true")); auto. }
  destruct (str_is name "logstash_hot_threads").
  { rewrite snd_bind_lift.
    destruct (py_get arguments "threads" (PyInt 3)) as [threads | e]; auto.
    destruct (Hrequest (with_human arguments
                          ("/_node/hot_threads?threads=" ++ py_str threads)
                          "&human=true")); auto. }
  destruct (str_is name "logstash_plugins").
  { right; left. eexists. apply make_request_calls. }
  destruct (str_is name "check_backpressure").
  { destruct (Hreport (with_human arguments "/_node/stats/flow"
                         "?human=true") backpressure_report); auto. }
  destruct (str_is name "logstash_health_check").
  { right; right; right. split; reflexivity. }
  destruct (str_is name "logstash_jvm_stats").
  { destruct (Hrequest (with_human arguments "/_node/stats/jvm"
                          "?human=true")); auto. }
  destruct (str_is name "logstash_health_report").
  { right; left. eexists. apply make_request_calls. }
  destruct (str_is name "flow_metrics").
  { destruct (Hreport (with_human arguments "/_node/stats" "?human=true")
                flow_report); auto. }
  left. reflexivity.
Qed.

Lemma firstn_read_only env n :
  Forall (fun c => read_only c = true) (firstn n (health_calls env)).
Proof.
  apply Forall_forall. intros c Hin.
  assert (Hall : In c (health_calls env)).
  { rewrite <- (firstn_skipn n (health_calls env)).
    apply in_or_app. left. exact Hin. }
  clear Hin. rename Hall into Hin. cbn in Hin. repeat destruct Hin as [<- | Hin]; try reflexivity.
  contradiction.
Qed.

(** Property X13.  Whatever the tool name and the arguments,
    [handle_tool_call] only ever issues the probe or requests with the
    method GET: it never writes to the upstream. *)
Theorem tool_calls_are_read_only env name arguments :
  Forall (fun c => read_only c = true)
    (snd (handle_tool_call env name arguments)).
Proof.
  destruct (handle_tool_call_calls env name arguments)
    as [-> | [(endpoint & ->) | [-> | (_ & ->)]]].
  - constructor.
  - repeat constructor.
  - repeat constructor.
  - destruct (health_check_shape env) as (result & n & -> & _).
    apply firstn_read_only.
Qed.

(** Property X14.  A tool call makes at most one upstream call, except
    [logstash_health_check], which makes at most four. *)
Theorem tool_calls_are_bounded env name arguments :
  (length (snd (handle_tool_call env name arguments)) <= 4)%nat
  /\ (str_is name "logstash_health_check" = false ->
      (length (snd (handle_tool_call env name arguments)) <= 1)%nat).
Proof.
  destruct (handle_tool_call_calls env name arguments)
    as [-> | [(endpoint & ->) | [-> | (Hname & ->)]]];
    try (cbn; split; intros; lia).
  destruct (health_check_shape env) as (result & n & -> & Hn & _).
  cbn [snd]. rewrite length_firstn. cbn [health_calls length].
  split; [lia |]. rewrite Hname. discriminate.
Qed.

Lemma py_get_not_a_dict v k default :
  type_name v <> "dict" ->
  py_get v k default
  = Raise (MkExn AttributeError
             ("'" ++ type_name v ++ "' object has no attribute 'get'")).
Proof. destruct v; try reflexivity. intros H. now contradiction H. Qed.

(** Property X15.  The tools that read their arguments need a mapping: given
    arguments that are not a dict they return the error of the
    [AttributeError], echoing the tool and the arguments, before any upstream
    call. *)
Theorem arguments_must_be_a_mapping env name arguments :
  In name ["logstash_node_stats"; "logstash_pipelines_stats";
           "logstash_pipeline_stats"; "logstash_hot_threads";
           "check_backpressure"; "logstash_jvm_stats"; "flow_metrics"] ->
  type_name arguments <> "dict" ->
  handle_tool_call env (PyStr name) arguments
  = (Ok (tool_error
           (MkExn AttributeError
              ("'" ++ type_name arguments
               ++ "' object has no attribute 'get'"))
           (PyStr name) arguments), []).
Proof.
  intros Hname Htype. cbn [In] in Hname.
  repeat (destruct Hname as [<- | Hname]); try contradiction;
    unfold handle_tool_call, with_human;
    cbn [str_is String.eqb Ascii.eqb Bool.eqb];
    rewrite !(py_get_not_a_dict _ _ _ Htype); reflexivity.
Qed.

Lemma arguments_must_be_a_mapping_witness :
  handle_tool_call monitored (PyStr "logstash_hot_threads")
    (PyList [PyInt 5])
  = (Ok (tool_error
           (MkExn AttributeError "'list' object has no attribute 'get'")
           (PyStr "logstash_hot_threads") (PyList [PyInt 5])), []).
Proof.
  apply (arguments_must_be_a_mapping monitored "logstash_hot_threads"
           (PyList [PyInt 5])).
  - cbn. tauto.
  - discriminate.
Defined.

(** Property X16.  The tools that declare no property never read their
    arguments: for each of them the upstream calls and the outcome are the
    same whatever is passed, a dict or not; only the echo of the arguments
    in an error differs. *)
Theorem undeclared_arguments_are_ignored env name :
  In name ["logstash_check_connectivity"; "logstash_node_info";
           "logstash_plugins"; "logstash_health_check";
           "logstash_health_report"] ->
  exists body calls,
    forall arguments,
      handle_tool_call env (PyStr name) arguments
      = (Ok (tool_answer body (PyStr name) arguments), calls).
Proof.
  intros Hname. cbn [In] in Hname.
  repeat (destruct Hname as [<- | Hname]); try contradiction;
    unfold handle_tool_call;
    cbn [str_is String.eqb Ascii.eqb Bool.eqb];
    eexists _, _; intros arguments; rewrite try_except_pair;
    unfold tool_answer; reflexivity.
Qed.

Lemma undeclared_arguments_are_ignored_witness :
  exists body calls,
    forall arguments,
      handle_tool_call starting_up (PyStr "logstash_plugins") arguments
      = (Ok (tool_answer body (PyStr "logstash_plugins") arguments), calls).
Proof.
  apply (undeclared_arguments_are_ignored starting_up "logstash_plugins").
  cbn. tauto.
Defined.

(** Property X17.  A [current] that is not a number (a string, null, a list
    or a dict) makes [check_backpressure] return the error of the
    [TypeError] raised by the first comparison, and no classification. *)
Theorem backpressure_needs_a_number
  env arguments endpoint snapshot flow bp r :
  with_human (PyDict arguments) "/_node/stats/flow" "?human=true"
  = Ok endpoint ->
  fst (make_request env endpoint) = Ok (PyDict snapshot) ->
  dict_get snapshot "flow" = Some (PyDict flow) ->
  dict_get flow "queue_backpressure" = Some (PyDict bp) ->
  dict_get bp "current" = Some r ->
  as_number r = None ->
  fst (handle_tool_call env (PyStr "check_backpressure") (PyDict arguments))
  = Ok (tool_error
          (MkExn TypeError
             ("'>' not supported between instances of '" ++ type_name r
              ++ "' and 'float'"))
          (PyStr "check_backpressure") (PyDict arguments)).
Proof.
  intros Hendpoint Hfetch Hflow Hbp Hcurrent Hnumber.
  rewrite (check_backpressure_run _ _ _ _ Hendpoint Hfetch).
  unfold backpressure_report. cbn [py_get res_bind].
  rewrite (dict_get_or_some _ _ _ _ Hflow). cbn [py_get res_bind].
  rewrite (dict_get_or_some _ _ _ _ Hbp).
  rewrite (dict_get_nonempty _ _ _ Hcurrent). cbn [py_get res_bind].
  rewrite (dict_get_or_some _ _ _ _ Hcurrent).
  unfold classify_backpressure, py_gt. rewrite Hnumber. reflexivity.
Qed.

Lemma backpressure_needs_a_number_witness :
  fst (handle_tool_call
         (serving [(flow_url,
                    PyDict (flow_snapshot [("current", PyStr "12%")]))])
         (PyStr "check_backpressure") (PyDict []))
  = Ok (tool_error
          (MkExn TypeError
             "'>' not supported between instances of 'str' and 'float'")
          (PyStr "check_backpressure") (PyDict [])).
Proof.
  apply (backpressure_needs_a_number
           (serving [(flow_url,
                      PyDict (flow_snapshot [("current", PyStr "12%")]))])
           [] "/_node/stats/flow?human=true"
           (flow_snapshot [("current", PyStr "12%")])
           [("input_throughput", PyDict [("current", PyFloat 12.5)]);
            ("queue_backpressure", PyDict [("current", PyStr "12%")])]
           [("current", PyStr "12%")] (PyStr "12%"));
    reflexivity.
Defined.

(** Property X18.  A [queue_backpressure] that is present but falsy (an
    empty dict, null, 0, an empty string or list) counts as missing:
    [check_backpressure] returns the error "Backpressure data not
    available". *)
Theorem empty_backpressure_is_unavailable
  env arguments endpoint snapshot flow bp :
  with_human (PyDict arguments) "/_node/stats/flow" "?human=true"
  = Ok endpoint ->
  fst (make_request env endpoint) = Ok (PyDict snapshot) ->
  dict_get snapshot "flow" = Some (PyDict flow) ->
  dict_get flow "queue_backpressure" = Some bp ->
  truthy bp = false ->
  fst (handle_tool_call env (PyStr "check_backpressure") (PyDict arguments))
  = Ok (PyDict [("error", PyStr "Backpressure data not available")]).
Proof.
  intros Hendpoint Hfetch Hflow Hbp Hfalsy.
  rewrite (check_backpressure_run _ _ _ _ Hendpoint Hfetch).
  unfold backpressure_report. cbn [py_get res_bind].
  rewrite (dict_get_or_some _ _ _ _ Hflow). cbn [py_get res_bind].
  rewrite (dict_get_or_some _ _ _ _ Hbp), Hfalsy. reflexivity.
Qed.

Lemma empty_backpressure_is_unavailable_witness :
  fst (handle_tool_call
         (serving [(flow_url,
                    PyDict [("flow",
                             PyDict [("queue_backpressure", PyNone)])])])
         (PyStr "check_backpressure") (PyDict [("human", PyBool true)]))
  = Ok (PyDict [("error", PyStr "Backpressure data not available")]).
Proof.
  apply (empty_backpressure_is_unavailable
           (serving [(flow_url,
                      PyDict [("flow",
                               PyDict [("queue_backpressure", PyNone)])])])
           [("human", PyBool true)] "/_node/stats/flow?human=true"
           [("flow", PyDict [("queue_backpressure", PyNone)])]
           [("queue_backpressure", PyNone)] PyNone);
    reflexivity.
Defined.

(** [flow_metrics] once the node statistics are there. *)
Lemma flow_metrics_run env arguments endpoint full_stats :
  with_human (PyDict arguments) "/_node/stats" "?human=true" = Ok endpoint ->
  fst (make_request env endpoint) = Ok full_stats ->
  fst (handle_tool_call env (PyStr "flow_metrics") (PyDict arguments))
  = Ok (tool_answer (flow_report full_stats) (PyStr "flow_metrics")
          (PyDict arguments)).
Proof.
  intros Hendpoint Hfetch. unfold handle_tool_call.
  cbn [str_is String.eqb Ascii.eqb Bool.eqb].
  rewrite try_except_pair. cbn [fst]. rewrite Hendpoint.
  rewrite fst_bind. cbn [lift fst]. rewrite fst_bind, Hfetch.
  cbn [lift fst]. destruct (flow_report full_stats); reflexivity.
Qed.

(** Property X19.  When the node statistics have no [flow] block, or a
    falsy one, [flow_metrics] returns the error "Flow metrics not
    available". *)
Theorem flow_metrics_unavailable env arguments endpoint snapshot :
  with_human (PyDict arguments) "/_node/stats" "?human=true" = Ok endpoint ->
  fst (make_request env endpoint) = Ok (PyDict snapshot) ->
  truthy (dict_get_or snapshot "flow" (PyDict [])) = false ->
  fst (handle_tool_call env (PyStr "flow_metrics") (PyDict arguments))
  = Ok (PyDict [("error", PyStr "Flow metrics not available")]).
Proof.
  intros Hendpoint Hfetch Hfalsy.
  rewrite (flow_metrics_run _ _ _ _ Hendpoint Hfetch).
  unfold flow_report. cbn [py_get res_bind]. rewrite Hfalsy. reflexivity.
Qed.

Lemma flow_metrics_unavailable_witness :
  fst (handle_tool_call monitored (PyStr "flow_metrics") (PyDict []))
  = Ok (PyDict [("error", PyStr "Flow metrics not available")]).
Proof.
  apply (flow_metrics_unavailable monitored [] "/_node/stats?human=true"
           sample_node_stats); reflexivity.
Defined.

Lemma current_of_series flow key :
  series_readable flow key = true ->
  current_of (PyDict flow) key = Ok (series_current flow key).
Proof.
  unfold series_readable, current_of, series_current. cbn [py_get res_bind].
  unfold dict_get_or at 1.
  destruct (dict_get flow key) as [series |]; [| reflexivity].
  destruct series; try discriminate. reflexivity.
Qed.

(** Property X20.  With a non-empty [flow] block whose four series are each
    missing or a dict, [flow_metrics] returns the block as it is, the
    timestamp of the snapshot, and a summary with the [current] of each
    series, 0 standing in for a missing series or a missing [current]. *)
Theorem flow_metrics_summary env arguments endpoint snapshot flow :
  with_human (PyDict arguments) "/_node/stats" "?human=true" = Ok endpoint ->
  fst (make_request env endpoint) = Ok (PyDict snapshot) ->
  dict_get snapshot "flow" = Some (PyDict flow) ->
  flow <> [] ->
  forallb (series_readable flow)
    ["worker_concurrency"; "queue_backpressure"; "input_throughput";
     "output_throughput"] = true ->
  fst (handle_tool_call env (PyStr "flow_metrics") (PyDict arguments))
  = Ok (PyDict
          [("timestamp", dict_get_or snapshot "timestamp" PyNone);
           ("flow_metrics", PyDict flow);
           ("summary",
            PyDict
              [("current_worker_concurrency",
                series_current flow "worker_concurrency");
               ("current_queue_backpressure",
                series_current flow "queue_backpressure");
               ("input_throughput", series_current flow "input_throughput");
               ("output_throughput",
                series_current flow "output_throughput")])]).
Proof.
  intros Hendpoint Hfetch Hflow Hnonempty Hreadable.
  rewrite (flow_metrics_run _ _ _ _ Hendpoint Hfetch).
  cbn [forallb] in Hreadable.
  repeat (apply andb_prop in Hreadable;
          destruct Hreadable as [? Hreadable]).
  unfold flow_report. cbn [py_get res_bind].
  rewrite (dict_get_or_some _ _ _ _ Hflow).
  destruct flow as [| item flow']; [contradiction |].
  cbn [truthy].
  rewrite !current_of_series by assumption. reflexivity.
Qed.

Lemma flow_metrics_summary_witness :
  fst (handle_tool_call
         (serving [(stats_url,
                    PyDict (flow_snapshot [("current", PyFloat 0.15)]))])
         (PyStr "flow_metrics") (PyDict []))
  = Ok (PyDict
          [("timestamp", PyNone);
           ("flow_metrics",
            PyDict [("input_throughput", PyDict [("current", PyFloat 12.5)]);
                    ("queue_backpressure",
                     PyDict [("current", PyFloat 0.15)])]);
           ("summary",
            PyDict
              [("current_worker_concurrency", PyInt 0);
               ("current_queue_backpressure", PyFloat 0.15);
               ("input_throughput", PyFloat 12.5);
               ("output_throughput", PyInt 0)])]).
Proof.
  apply (flow_metrics_summary
           (serving [(stats_url,
                      PyDict (flow_snapshot [("current", PyFloat 0.15)]))])
           [] "/_node/stats?human=true"
           (flow_snapshot [("current", PyFloat 0.15)])
           [("input_throughput", PyDict [("current", PyFloat 12.5)]);
            ("queue_backpressure", PyDict [("current", PyFloat 0.15)])]);
    try reflexivity.
  discriminate.
Defined.

Lemma dict_get_In (d : list (string * value)) k x :
  dict_get d k = Some x -> In (k, x) d.
Proof.
  induction d as [| [k' v] rest IH]; cbn; [discriminate |].
  destruct (String.eqb_spec k' k) as [-> | _].
  - intros H. injection H as ->. left. reflexivity.
  - intros H. right. exact (IH H).
Qed.

Lemma declared_defaults name field default :
  declared_default name field = Some default ->
  In (name, field, default)
    [("logstash_node_stats", "human", PyBool true);
     ("logstash_pipelines_stats", "human", PyBool true);
     ("logstash_pipeline_stats", "human", PyBool true);
     ("logstash_hot_threads", "threads", PyInt 3);
     ("logstash_hot_threads", "human", PyBool true);
     ("check_backpressure", "human", PyBool true);
     ("logstash_jvm_stats", "human", PyBool true);
     ("flow_metrics", "human", PyBool true)].
Proof.
  unfold declared_default.
  destruct (find _ get_tools) as [descriptor |] eqn:Hfind; [| discriminate].
  apply find_some in Hfind. destruct Hfind as [Hlisted Hname].
  destruct descriptor as [| | | | | | d]; try discriminate.
  destruct (dict_get d "inputSchema") as [[| | | | | | schema] |] eqn:Hschema;
    try discriminate.
  destruct (dict_get schema "properties")
    as [[| | | | | | properties] |] eqn:Hproperties; try discriminate.
  destruct (dict_get properties field)
    as [[| | | | | | declaration] |] eqn:Hfield; try discriminate.
  intros Hdefault.
  apply dict_get_In in Hschema, Hproperties, Hfield, Hdefault.
  unfold get_tools, tool in Hlisted.
  enumerate Hlisted;
    match type of Hname with
    | str_is ?v name = true =>
        let v' := eval vm_compute in v in change v with v' in Hname
    end;
    cbn [str_is] in Hname; apply String.eqb_eq in Hname; subst name;
    enumerate Hschema; enumerate Hproperties;
    unfold human_property, id_property, threads_property, property in Hfield;
    enumerate Hfield; enumerate Hdefault; cbn; tauto.
Qed.

Lemma dict_get_or_added_same arguments field default fallback :
  dict_get_or ((field, default) :: arguments) field fallback = default.
Proof. unfold dict_get_or. cbn. rewrite String.eqb_refl. reflexivity. Qed.

Lemma dict_get_or_added_other arguments field default key fallback :
  String.eqb field key = false ->
  dict_get_or ((field, default) :: arguments) key fallback
  = dict_get_or arguments key fallback.
Proof. unfold dict_get_or. cbn. intros ->. reflexivity. Qed.

(** Property X21.  The defaults that [get_tools] declares are the ones the
    handler uses: when a tool declares a default for an argument and the
    argument is absent, the call makes the same upstream calls and has the
    same outcome as a call with the argument set to the declared default;
    only the echo of the arguments in an error differs. *)
Theorem declared_defaults_are_used env name field default arguments :
  declared_default name field = Some default ->
  dict_get arguments field = None ->
  exists body calls,
    handle_tool_call env (PyStr name) (PyDict arguments)
    = (Ok (tool_answer body (PyStr name) (PyDict arguments)), calls)
    /\ handle_tool_call env (PyStr name)
         (PyDict ((field, default) :: arguments))
       = (Ok (tool_answer body (PyStr name)
                (PyDict ((field, default) :: arguments))), calls).
Proof.
  intros Hdeclared Habsent.
  apply declared_defaults in Hdeclared. cbn [In] in Hdeclared.
  repeat (destruct Hdeclared as [Heq | Hdeclared];
          [injection Heq as <- <- <- |]);
    try contradiction;
    unfold handle_tool_call, with_human;
    cbn [str_is String.eqb Ascii.eqb Bool.eqb py_get];
    rewrite ?dict_get_or_added_same;
    rewrite ?dict_get_or_added_other by reflexivity;
    rewrite ?(dict_get_or_none _ _ _ Habsent);
    rewrite !try_except_pair;
    eexists _, _; split; reflexivity.
Qed.

Lemma declared_defaults_are_used_witness :
  exists body calls,
    handle_tool_call monitored (PyStr "logstash_hot_threads")
      (PyDict [("human", PyBool false)])
    = (Ok (tool_answer body (PyStr "logstash_hot_threads")
             (PyDict [("human", PyBool false)])), calls)
    /\ handle_tool_call monitored (PyStr "logstash_hot_threads")
         (PyDict [("threads", PyInt 3); ("human", PyBool false)])
       = (Ok (tool_answer body (PyStr "logstash_hot_threads")
                (PyDict [("threads", PyInt 3); ("human", PyBool false)])),
          calls).
Proof.
  apply (declared_defaults_are_used monitored "logstash_hot_threads"
           "threads" (PyInt 3) [("human", PyBool false)]);
    reflexivity.
Defined.

(** ** More on the requests *)

(** Every request that is a dict is answered, by one of the two envelopes,
    with the request's id; the session is initialized afterwards when it was
    before or the method is [initialize]. *)
Lemma handle_request_answer env is_initialized request :
  exists response calls,
    handle_request env is_initialized (PyDict request)
    = (Ok (response,
           is_initialized
           || str_is (dict_get_or request "method" PyNone) "initialize"),
       calls)
    /\ ((exists result,
            response
            = result_envelope (dict_get_or request "id" PyNone) result)
        \/ (exists message,
               response
               = error_envelope (dict_get_or request "id" PyNone) (-32602)
                   message)).
Proof.
  unfold handle_request. cbn [py_get lift bind app].
  set (method := dict_get_or request "method" PyNone).
  set (request_id := dict_get_or request "id" PyNone).
  set (params := dict_get_or request "params" (PyDict [])).
  rewrite try_except_pair.
  destruct (str_is method "initialize").
  { rewrite orb_true_r. cbn. eexists _, _. split; [reflexivity |].
    left. eexists. reflexivity. }
  rewrite orb_false_r.
  destruct (str_is method "tools/list").
  { destruct is_initialized; cbn; eexists _, _; (split; [reflexivity |]);
      [left | right]; eexists; reflexivity. }
  destruct (str_is method "tools/call").
  { destruct is_initialized; cbn;
      [| eexists _, _; split; [reflexivity |]; right; eexists; reflexivity].
    destruct (py_get params "name" PyNone) as [tool_name | e]; cbn;
      [| eexists _, _; split; [reflexivity |]; right; eexists; reflexivity].
    destruct (py_get params "arguments" (PyDict [])) as [arguments | e]; cbn;
      [| eexists _, _; split; [reflexivity |]; right; eexists; reflexivity].
    destruct (handle_tool_call_returns env tool_name arguments)
      as (result & Hresult).
    destruct (handle_tool_call env tool_name arguments) as [r calls].
    cbn in Hresult. subst r. cbn.
    eexists _, _. split; [reflexivity |]. left. eexists. reflexivity. }
  cbn. eexists _, _. split; [reflexivity |]. right. eexists. reflexivity.
Qed.

(** Property X22.  A request that is a dict is always answered, never
    raised on: the response carries [jsonrpc] "2.0" and the id of the
    request (null when it has none), and has either a [result] or an
    [error] with the code -32602, never both. *)
Theorem responses_echo_the_id env is_initialized request :
  exists response state calls,
    handle_request env is_initialized (PyDict request)
    = (Ok (PyDict response, state), calls)
    /\ dict_get response "jsonrpc" = Some (PyStr "2.0")
    /\ dict_get response "id" = Some (dict_get_or request "id" PyNone)
    /\ ((exists result,
            dict_get response "result" = Some result
            /\ dict_get response "error" = None)
        \/ (exists message,
               dict_get response "error"
               = Some (PyDict [("code", PyInt (-32602));
                               ("message", PyStr message)])
               /\ dict_get response "result" = None)).
Proof.
  destruct (handle_request_answer env is_initialized request)
    as (response & calls & Hrun & [(result & ->) | (message & ->)]);
    eexists _, _, _; (split; [exact Hrun |]); repeat split.
  - left. eexists. split; reflexivity.
  - right. eexists. split; reflexivity.
Qed.

(** Property X23.  The session flag only ever goes up: after a request the
    session is initialized exactly when it was before or the method is
    [initialize]; no request uninitializes it, and [initialize] succeeds
    from either state. *)
Theorem session_flag_only_rises env is_initialized request :
  exists response calls,
    handle_request env is_initialized (PyDict request)
    = (Ok (response,
           is_initialized
           || str_is (dict_get_or request "method" PyNone) "initialize"),
       calls).
Proof.
  destruct (handle_request_answer env is_initialized request)
    as (response & calls & Hrun & _).
  eexists _, _. exact Hrun.
Qed.

(** Property X24.  Only a [tools/call] on an initialized session reaches
    the upstream: on an uninitialized session, and for every other method,
    [handle_request] makes no upstream call. *)
Theorem only_tool_calls_reach_the_upstream env is_initialized request :
  is_initialized = false
  \/ str_is (dict_get_or request "method" PyNone) "tools/call" = false ->
  snd (handle_request env is_initialized (PyDict request)) = [].
Proof.
  intros Hquiet. unfold handle_request. cbn [py_get lift bind app].
  rewrite try_except_pair. cbn [snd].
  destruct (str_is (dict_get_or request "method" PyNone) "initialize");
    [reflexivity |].
  destruct (str_is (dict_get_or request "method" PyNone) "tools/list");
    [destruct is_initialized; reflexivity |].
  destruct (str_is (dict_get_or request "method" PyNone) "tools/call");
    [| reflexivity].
  destruct Hquiet as [-> | Hquiet]; [reflexivity | discriminate].
Qed.

Lemma only_tool_calls_reach_the_upstream_witness :
  snd (handle_request monitored false
         (PyDict [("id", PyInt 2); ("method", PyStr "tools/call");
                  ("params",
                   PyDict [("name", PyStr "logstash_node_info")])]))
  = [].
Proof.
  apply (only_tool_calls_reach_the_upstream monitored false
           [("id", PyInt 2); ("method", PyStr "tools/call");
            ("params", PyDict [("name", PyStr "logstash_node_info")])]).
  left. reflexivity.
Defined.

(** Property X25.  A [tools/call] whose [params] is not a dict is answered,
    on an initialized session, by the error envelope of the
    [AttributeError]; no tool runs. *)
Theorem params_must_be_a_mapping env request params :
  dict_get request "method" = Some (PyStr "tools/call") ->
  dict_get request "params" = Some params ->
  type_name params <> "dict" ->
  handle_request env true (PyDict request)
  = (Ok (error_envelope (dict_get_or request "id" PyNone) (-32602)
           ("'" ++ type_name params ++ "' object has no attribute 'get'"),
         true), []).
Proof.
  intros Hmethod Hparams Htype. unfold handle_request.
  cbn [py_get lift bind app].
  rewrite (dict_get_or_some _ _ _ _ Hmethod).
  rewrite (dict_get_or_some _ _ _ _ Hparams).
  cbn [str_is String.eqb Ascii.eqb Bool.eqb negb].
  rewrite (py_get_not_a_dict _ _ _ Htype). reflexivity.
Qed.

Lemma params_must_be_a_mapping_witness :
  handle_request monitored true
    (PyDict [("id", PyStr "a1"); ("method", PyStr "tools/call");
             ("params", PyList [PyStr "logstash_node_info"])])
  = (Ok (error_envelope (PyStr "a1") (-32602)
           "'list' object has no attribute 'get'", true), []).
Proof.
  apply (params_must_be_a_mapping monitored
           [("id", PyStr "a1"); ("method", PyStr "tools/call");
            ("params", PyList [PyStr "logstash_node_info"])]
           (PyList [PyStr "logstash_node_info"])).
  - reflexivity.
  - reflexivity.
  - discriminate.
Defined.

(** ** The read loop *)

Lemma lstrip_spaces line :
  Forall (fun c => is_space c = true) (list_ascii_of_string line) ->
  lstrip line = "".
Proof.
  induction line as [| c rest IH]; cbn; [reflexivity |].
  intros Hspaces. inversion Hspaces as [| ? ? Hc Hrest]; subst.
  rewrite Hc. exact (IH Hrest).
Qed.

Lemma blank_step env is_initialized line :
  Forall (fun c => is_space c = true) (list_ascii_of_string line) ->
  main_step env is_initialized line = (Ok (None, is_initialized), []).
Proof.
  intros Hspaces. unfold main_step, strip.
  rewrite (lstrip_spaces line Hspaces). reflexivity.
Qed.

(** Property X26.  A line of whitespace only, not the empty line that marks
    the end of the input, is skipped: nothing is parsed, nothing is printed,
    no upstream call is made, the session is left as it was and the loop goes
    on with the next line. *)
Theorem blank_lines_are_skipped env is_initialized line rest :
  line <> "" ->
  Forall (fun c => is_space c = true) (list_ascii_of_string line) ->
  main_loop is_initialized ((env, line) :: rest)
  = main_loop is_initialized rest.
Proof.
  intros Hline Hspaces. cbn [main_loop].
  apply String.eqb_neq in Hline. rewrite Hline.
  rewrite (blank_step env is_initialized line Hspaces).
  destruct (main_loop is_initialized rest). reflexivity.
Qed.

Lemma blank_lines_are_skipped_witness :
  main_loop true
    [(monitored, String " " (String "009" newline));
     (reading_a_call, "call")]
  = main_loop true [(reading_a_call, "call")].
Proof.
  apply (blank_lines_are_skipped monitored true
           (String " " (String "009" newline))).
  - discriminate.
  - repeat constructor.
Defined.

Lemma main_step_not_an_object env is_initialized line request :
  strip line <> "" ->
  json_loads env (strip line) = Ok request ->
  type_name request <> "dict" ->
  main_step env is_initialized line
  = (Raise (MkExn AttributeError
              ("'" ++ type_name request
               ++ "' object has no attribute 'get'")), []).
Proof.
  intros Hline Hparse Htype. unfold main_step.
  apply String.eqb_neq in Hline. rewrite Hline, Hparse.
  unfold lift at 1. cbn [bind]. unfold handle_request.
  rewrite (py_get_not_a_dict request "method" PyNone Htype). reflexivity.
Qed.

(** Property X27.  A line that parses as JSON but not as an object (a list,
    a number, a string, null) is not answered: [request_data.get] raises an
    [AttributeError] that nothing catches, so the loop ends there, with
    nothing printed for the line and the lines after it never read. *)
Theorem non_object_line_ends_the_loop
  env is_initialized line request rest :
  strip line <> "" ->
  json_loads env (strip line) = Ok request ->
  type_name request <> "dict" ->
  main_loop is_initialized ((env, line) :: rest)
  = MkOutcome []
      (Raise (MkExn AttributeError
                ("'" ++ type_name request
                 ++ "' object has no attribute 'get'")))
      [].
Proof.
  intros Hline Hparse Htype. cbn [main_loop].
  destruct (String.eqb_spec line "") as [-> | _];
    [contradiction Hline; reflexivity |].
  rewrite (main_step_not_an_object _ _ _ _ Hline Hparse Htype). reflexivity.
Qed.

Lemma non_object_line_ends_the_loop_witness :
  main_loop true
    [(reading_numbers, "42"); (reading_numbers, "43")]
  = MkOutcome []
      (Raise (MkExn AttributeError "'int' object has no attribute 'get'"))
      [].
Proof.
  apply (non_object_line_ends_the_loop reading_numbers true "42" (PyInt 42)
           [(reading_numbers, "43")]).
  - discriminate.
  - reflexivity.
  - discriminate.
Defined.

(** An uninitialized session answers without any upstream call. *)
Lemma uninitialized_answer env request :
  exists response,
    handle_request env false (PyDict request)
    = (Ok (response,
           str_is (dict_get_or request "method" PyNone) "initialize"), []).
Proof.
  unfold handle_request. cbn [py_get lift bind app].
  rewrite try_except_pair.
  destruct (str_is (dict_get_or request "method" PyNone) "initialize");
    [eexists; reflexivity |].
  destruct (str_is (dict_get_or request "method" PyNone) "tools/list");
    [eexists; reflexivity |].
  destruct (str_is (dict_get_or request "method" PyNone) "tools/call");
    eexists; reflexivity.
Qed.

(** A turn on an uninitialized session that does not initialize: no call,
    and the session stays uninitialized. *)
Lemma quiet_step env line :
  (forall request,
      json_loads env (strip line) = Ok (PyDict request) ->
      str_is (dict_get_or request "method" PyNone) "initialize" = false) ->
  (exists out, main_step env false line = (Ok (out, false), []))
  \/ (exists e, main_step env false line = (Raise e, [])).
Proof.
  intros Hmethod. unfold main_step.
  destruct (String.eqb (strip line) "");
    [left; eexists; reflexivity |].
  destruct (json_loads env (strip line)) as [request | e] eqn:Hparse.
  - destruct request as [| | | | | | request];
      try (right; eexists; reflexivity).
    specialize (Hmethod request eq_refl).
    destruct (uninitialized_answer env request) as (response & Hrun).
    rewrite Hmethod in Hrun. left.
    unfold try_except, bind, lift, ret. rewrite Hrun. cbn.
    eexists. reflexivity.
  - unfold try_except, bind, lift, ret. cbn.
    destruct (is_json_decode_error e); [left | right]; eexists; reflexivity.
Qed.

(** Property X28.  As long as no line initializes the session, the server
    never contacts the upstream: started uninitialized and fed lines none
    of which is an [initialize] request, the loop makes no upstream call,
    and if it ends by [break] the session is still uninitialized. *)
Theorem uninitialized_loop_is_silent turns :
  (forall env line request,
      In (env, line) turns ->
      json_loads env (strip line) = Ok (PyDict request) ->
      str_is (dict_get_or request "method" PyNone) "initialize" = false) ->
  calls_made (main_loop false turns) = []
  /\ (ending (main_loop false turns) = Ok false
      \/ exists e, ending (main_loop false turns) = Raise e).
Proof.
  induction turns as [| [env line] rest IH]; intros Hmethod.
  - split; [reflexivity | left; reflexivity].
  - cbn [main_loop].
    destruct (String.eqb line ""); [split; [reflexivity | left; reflexivity] |].
    destruct (quiet_step env line) as [(out & ->) | (e & ->)].
    + intros request. apply Hmethod. left. reflexivity.
    + cbn [calls_made ending app]. apply IH.
      intros env' line' request Hin. apply Hmethod. right. exact Hin.
    + split; [reflexivity | right; eexists; reflexivity].
Qed.

Lemma uninitialized_loop_is_silent_witness :
  calls_made
    (main_loop false
       [(reading_a_call, "{tools/call logstash_node_info}");
        (reading_a_call, "{tools/call logstash_node_info}")])
  = []
  /\ (ending
        (main_loop false
           [(reading_a_call, "{tools/call logstash_node_info}");
            (reading_a_call, "{tools/call logstash_node_info}")])
      = Ok false
      \/ exists e,
          ending
            (main_loop false
               [(reading_a_call, "{tools/call logstash_node_info}");
                (reading_a_call, "{tools/call logstash_node_info}")])
          = Raise e).
Proof.
  apply (uninitialized_loop_is_silent
           [(reading_a_call, "{tools/call logstash_node_info}");
            (reading_a_call, "{tools/call logstash_node_info}")]).
  intros env line request Hin Hparse.
  cbn [In] in Hin.
  repeat (destruct Hin as [Hin | Hin];
          [injection Hin as <- <-; cbn in Hparse;
           injection Hparse as <-; reflexivity |]).
  contradiction.
Defined.

Lemma step_keeps_session env line out state calls :
  main_step env true line = (Ok (out, state), calls) -> state = true.
Proof.
  unfold main_step.
  destruct (String.eqb (strip line) "");
    [intros H; injection H as _ <- _; reflexivity |].
  destruct (json_loads env (strip line)) as [request | e].
  - destruct request as [| | | | | | request]; try discriminate.
    destruct (handle_request_answer env true request)
      as (response & calls' & Hrun & _).
    unfold try_except, bind, lift, ret. rewrite Hrun. cbn.
    intros H. injection H as _ <- _. reflexivity.
  - unfold try_except, bind, lift, ret. cbn.
    destruct (is_json_decode_error e); [| discriminate].
    cbn. intros H. injection H as _ <- _. reflexivity.
Qed.

(** Property X29.  Nothing uninitializes the session: a loop that starts
    with the session initialized ends with it initialized, whatever the
    lines are, unless an exception ends it. *)
Theorem initialized_loop_stays_initialized turns :
  ending (main_loop true turns) = Ok true
  \/ exists e, ending (main_loop true turns) = Raise e.
Proof.
  induction turns as [| [env line] rest IH]; cbn [main_loop].
  - left. reflexivity.
  - destruct (String.eqb line ""); [left; reflexivity |].
    destruct (main_step env true line) as [[[out next] | e] calls] eqn:Hstep;
      [| right; eexists; reflexivity].
    rewrite (step_keeps_session _ _ _ _ _ Hstep). exact IH.
Qed.

Lemma step_output env is_initialized line out state calls :
  main_step env is_initialized line = (Ok (out, state), calls) ->
  if String.eqb (strip line) "" then out = None
  else exists text, out = Some text.
Proof.
  unfold main_step.
  destruct (String.eqb (strip line) "");
    [intros H; injection H as <- _ _; reflexivity |].
  unfold try_except, bind, lift, ret.
  destruct (json_loads env (strip line)) as [request | e]; cbv beta iota.
  - destruct (handle_request env is_initialized request)
      as [[[response next] | e] calls']; cbn [fst snd].
    + intros H. injection H as <- _ _. eexists. reflexivity.
    + destruct (is_json_decode_error e); [| discriminate].
      intros H. injection H as <- _ _. eexists. reflexivity.
  - destruct (is_json_decode_error e); [| discriminate].
    intros H. injection H as <- _ _. eexists. reflexivity.
Qed.

(** Property X30.  When the loop reads all its lines and ends by [break],
    it has printed exactly one line for every line that is not blank, and
    none for a blank one. *)
Theorem one_response_per_line is_initialized turns state :
  Forall (fun turn => snd turn <> "") turns ->
  ending (main_loop is_initialized turns) = Ok state ->
  length (printed (main_loop is_initialized turns))
  = length (filter (fun turn => negb (String.eqb (strip (snd turn)) ""))
              turns).
Proof.
  intros Hlines. revert is_initialized.
  induction Hlines as [| [env line] rest Hline _ IH]; intros is_initialized;
    [reflexivity |].
  cbn [main_loop filter snd]. cbn [snd] in Hline.
  destruct (String.eqb_spec line "") as [-> | _]; [contradiction |].
  destruct (main_step env is_initialized line)
    as [[[out next] | e] calls] eqn:Hstep; [| discriminate].
  cbn [ending printed]. intros Hend.
  apply step_output in Hstep.
  destruct (String.eqb (strip line) "").
  - subst out. cbn [negb]. exact (IH next Hend).
  - destruct Hstep as (text & ->). cbn [negb length]. f_equal.
    exact (IH next Hend).
Qed.

Lemma one_response_per_line_witness :
  length
    (printed
       (main_loop false
          [(reading_a_call, "{tools/call logstash_node_info}");
           (reading_a_call, "  ")]))
  = length
      (filter (fun turn => negb (String.eqb (strip (snd turn)) ""))
         [(reading_a_call, "{tools/call logstash_node_info}");
          (reading_a_call, "  ")]).
Proof.
  apply (one_response_per_line false
           [(reading_a_call, "{tools/call logstash_node_info}");
            (reading_a_call, "  ")] false).
  - repeat constructor; discriminate.
  - reflexivity.
Defined.
